(** * pokerok.py: reading the Property table of an MSI package

    A shallow embedding of [src/pokerok.py].  The script is a thin
    command-line wrapper around [msilib]; what it runs on ([argparse],
    [os.path], [msilib], [str.lower] and the encoder of [sys.stdout]) is
    represented by the record [Runtime], and the functions of the script
    are written over it in a small state-and-exception monad.  A text
    that has been encoded is taken to reach its stream. *)

From Stdlib Require Import String Ascii List ZArith Bool Arith Lia.
From Stdlib Require Import Permutation Sorted.
Import ListNotations.
Open Scope string_scope.
Open Scope list_scope.

Set Implicit Arguments.

(** ** Python strings

    A [str] is kept as the bytes of its UTF-8 encoding.  Comparing such
    byte strings lexicographically ([String.compare]) orders them as
    Python orders the [str] values, by code point. *)

Module PyStr.

Definition newline : string := String "010"%char EmptyString.
Definition dquote : string := String "034"%char EmptyString.

Fixpoint spaces (n : nat) : string :=
  match n with
  | O => EmptyString
  | S n' => String " "%char (spaces n')
  end.

(** [format(s, "14")]-style padding of a string: left aligned, filled
    with spaces up to [width].  Only applied to ASCII labels, where the
    number of bytes and the number of code points coincide. *)
Definition ljust (width : nat) (s : string) : string :=
  (s ++ spaces (width - String.length s))%string.

(** The ASCII part of [str.lower]: the letters A-Z go to a-z, every
    other byte is kept. *)
Definition ascii_lower_char (c : ascii) : ascii :=
  let n := nat_of_ascii c in
  if (65 <=? n)%nat && (n <=? 90)%nat then ascii_of_nat (n + 32) else c.

Fixpoint ascii_lower (s : string) : string :=
  match s with
  | EmptyString => EmptyString
  | String c s' => String (ascii_lower_char c) (ascii_lower s')
  end.

Fixpoint is_ascii (s : string) : bool :=
  match s with
  | EmptyString => true
  | String c s' => (nat_of_ascii c <? 128)%nat && is_ascii s'
  end.

End PyStr.

(** ** Python dictionaries

    A [dict] keeps its entries in insertion order, and assigning to a key
    that is already present replaces the value where the key stands.  The
    order is observable through [sorted], which is stable. *)

Module PyDict.

Definition dict : Type := list (string * string).

Fixpoint get (key : string) (d : dict) : option string :=
  match d with
  | [] => None
  | (k, v) :: d' => if (k =? key)%string then Some v else get key d'
  end.

Fixpoint setitem (key value : string) (d : dict) : dict :=
  match d with
  | [] => [(key, value)]
  | (k, v) :: d' =>
      if (k =? key)%string then (k, value) :: d'
      else (k, v) :: setitem key value d'
  end.

Definition keys (d : dict) : list string := map fst d.

Definition is_empty (d : dict) : bool :=
  match d with [] => true | _ :: _ => false end.

(** The invariant of every dictionary: a key occurs once. *)
Definition wf (d : dict) : Prop := NoDup (keys d).

(** The dictionary that assigning the rows one after the other, in
    their order, makes of [d]. *)
Definition scan (rows : list (string * string)) (d : dict) : dict :=
  fold_left (fun acc row => setitem (fst row) (snd row) acc) rows d.

End PyDict.

(** ** [sorted(iterable, key=f)]

    Python's sort is stable and compares the keys with [<] only.  The
    model is an insertion sort with the same two properties; by
    [sorted_characterised] below its result is the one every stable sort
    by the key gives. *)

Section Sorted.

Variable key : string -> string.

Definition key_lt (a b : string) : bool := (key a <? key b)%string.
Definition key_le (a b : string) : Prop := (key a <=? key b)%string = true.

Fixpoint insert (x : string) (l : list string) : list string :=
  match l with
  | [] => [x]
  | y :: l' => if key_lt y x then y :: insert x l' else x :: y :: l'
  end.

Definition sorted (l : list string) : list string :=
  fold_right insert [] l.

(** The names whose key is [k]. *)
Definition same_key (k : string) (x : string) : bool := (key x =? k)%string.

End Sorted.

(** ** Exceptions and results *)

(** The exceptions the script distinguishes: [msilib.MSIError], and any
    other subclass of [Exception].  Each carries the text [str(e)]. *)
Inductive exception : Type :=
| MSIError (msg : string)
| OtherException (msg : string).

Definition str_of (e : exception) : string :=
  match e with MSIError m => m | OtherException m => m end.

(** What a statement can raise: an [Exception], or the [SystemExit] with
    which [argparse] leaves the program; [except Exception] does not catch
    the latter. *)
Inductive raised : Type :=
| Exc (e : exception)
| SystemExit (code : Z).

Inductive outcome (A : Type) : Type :=
| Return (a : A)
| Raise (r : raised).
Arguments Return {A} a.
Arguments Raise {A} r.

(** The result of one library call. *)
Inductive result (A : Type) : Type :=
| Ok (a : A)
| Err (e : exception).
Arguments Ok {A} a.
Arguments Err {A} e.

(** ** The libraries the script runs on *)

(** A fetched row: [GetString(i)] of the record. *)
Record MsiRecord : Type := mkRecord { GetString : nat -> result string }.

(** An opened view: the result of [Execute(None)], and what the
    successive calls of [Fetch()] give, one entry per call; once the list
    is used up [Fetch()] returns [None]. *)
Record View : Type := mkView {
  Execute : result unit;
  Fetch : list (result MsiRecord)
}.

Record Database : Type := mkDatabase { OpenView : string -> result View }.

(** The [persist] argument of [msilib.OpenDatabase]. *)
Inductive persist : Type :=
| MSIDBOPEN_CREATEDIRECT
| MSIDBOPEN_CREATE
| MSIDBOPEN_DIRECT
| MSIDBOPEN_READONLY
| MSIDBOPEN_TRANSACT.

(** A word of the command line as [argparse] reads it for a parser whose
    only option is the help:
    - [Positional s]: a positional argument; so are the empty word, a
      single dash, a negative number, a dashed word with a blank in it,
      and every word that follows the separator;
    - [Separator]: the first word [--];
    - [HelpOption]: [-h], [--help], an abbreviation of it, [-hh];
    - [HelpWithValue s]: the help option with a value, as [-hx] or
      [--help=1], which [argparse] refuses where it meets it;
    - [UnknownOption s]: any other dashed word. *)
Inductive arg : Type :=
| Positional (s : string)
| HelpOption
| UnknownOption (s : string)
| Separator
| HelpWithValue (s : string).

Record Runtime : Type := mkRuntime {
  (** [str.lower] *)
  str_lower : string -> string;
  (** [os.path.exists], [os.path.isfile] *)
  os_path_exists : string -> bool;
  os_path_isfile : string -> bool;
  (** [msilib.OpenDatabase(path, persist)] *)
  OpenDatabase : string -> persist -> result Database;
  (** the texts [argparse] writes: its help, and its usage and error
      message for a command line it rejects *)
  format_help : string;
  format_error : list arg -> string;
  (** the encoder of [sys.stdout], which is strict: for a text it cannot
      encode, the text [str(e)] of the [UnicodeEncodeError] it raises *)
  stdout_encode_error : string -> option string
}.

(** ** Program state and the monad of statements *)

Definition ref : Type := nat.

(** The [dict] objects allocated so far, and what has been written to the
    two output streams. *)
Record State : Type := mkState {
  heap : list PyDict.dict;
  stdout : string;
  stderr : string
}.

Definition initial : State := mkState [] EmptyString EmptyString.

Definition M (A : Type) : Type := State -> outcome A * State.

Definition ret {A} (a : A) : M A := fun s => (Return a, s).

Definition raise {A} (r : raised) : M A := fun s => (Raise r, s).

Definition bind {A B} (m : M A) (f : A -> M B) : M B :=
  fun s =>
    match m s with
    | (Return a, s') => f a s'
    | (Raise r, s') => (Raise r, s')
    end.

Notation "x <- m ;; k" := (bind m (fun x => k))
  (at level 61, m at next level, right associativity).
Notation "m ;;; k" := (bind m (fun _ => k))
  (at level 61, right associativity).

Definition lift {A} (r : result A) : M A :=
  match r with
  | Ok a => ret a
  | Err e => raise (Exc e)
  end.

(** [try: body  except Exception as e: handler e]; a [SystemExit] passes
    through. *)
Definition try_except {A} (body : M A) (handler : exception -> M A) : M A :=
  fun s =>
    match body s with
    | (Raise (Exc e), s') => handler e s'
    | other => other
    end.

Fixpoint for_each {A} (l : list A) (body : A -> M unit) : M unit :=
  match l with
  | [] => ret tt
  | x :: l' => body x ;;; for_each l' body
  end.
(** [sys.stderr.write(s)].  The encoder of [sys.stderr] replaces what it
    cannot encode and does not raise. *)
Definition stderr_write (s : string) : M unit :=
  fun st => (Return tt, mkState (heap st) (stdout st) (stderr st ++ s)%string).

(** *** Dictionary objects *)

Fixpoint update (r : ref) (d : PyDict.dict) (h : list PyDict.dict) : list PyDict.dict :=
  match h, r with
  | [], _ => []
  | _ :: h', O => d :: h'
  | d0 :: h', S r' => d0 :: update r' d h'
  end.

Definition deref (h : list PyDict.dict) (r : ref) : PyDict.dict := nth r h [].

(** [{}] *)
Definition new_dict : M ref :=
  fun st => (Return (length (heap st)),
             mkState (heap st ++ [[]]) (stdout st) (stderr st)).

(** [properties[name] = value] *)
Definition dict_setitem (r : ref) (name value : string) : M unit :=
  fun st => (Return tt,
             mkState (update r (PyDict.setitem name value (deref (heap st) r)) (heap st))
                     (stdout st) (stderr st)).

(** [properties.get(key)] *)
Definition dict_get (r : ref) (key : string) : M (option string) :=
  fun st => (Return (PyDict.get key (deref (heap st) r)), st).

(** [properties[name]]: a [KeyError] when the key is absent. *)
Definition dict_getitem (r : ref) (name : string) : M string :=
  fun st =>
    match PyDict.get name (deref (heap st) r) with
    | Some v => (Return v, st)
    | None => (Raise (Exc (OtherException name)), st)
    end.

(** [properties.keys()] *)
Definition dict_keys (r : ref) : M (list string) :=
  fun st => (Return (PyDict.keys (deref (heap st) r)), st).

(** [not properties] *)
Definition dict_not (r : ref) : M bool :=
  fun st => (Return (PyDict.is_empty (deref (heap st) r)), st).

(** ** The script *)

Record Namespace : Type := mkNamespace { msi_path : string }.

(** What [ArgumentParser.parse_args] comes to for a parser with one
    positional argument of [nargs="?"] and the help option. *)
Inductive parse_result : Type :=
| Parsed (value : option string)
| Help
| Rejected.

(** [argparse] goes through the words from left to right.  The first
    positional word is the value of the argument and a further one is
    left over; an unknown option is left over too; the help option ends
    the parse where it stands, and so does a help option with a value.
    At the end a word left over is an error. *)
Fixpoint argparse_scan (argv : list arg) (value : option string) (left_over : bool)
  : parse_result :=
  match argv with
  | [] => if left_over then Rejected else Parsed value
  | Positional s :: rest =>
      match value with
      | None => argparse_scan rest (Some s) left_over
      | Some _ => argparse_scan rest value true
      end
  | Separator :: rest => argparse_scan rest value left_over
  | HelpOption :: _ => Help
  | HelpWithValue _ :: _ => Rejected
  | UnknownOption _ :: rest => argparse_scan rest value true
  end.

Section Script.

Variable rt : Runtime.

(** What the encoder of [sys.stdout] raises for a text; encoding the
    empty text cannot fail. *)
Definition unencodable (text : string) : option string :=
  if (text =? EmptyString)%string then None else stdout_encode_error rt text.

(** [sys.stdout.write(text)]: the text is encoded when it is written. *)
Definition stdout_write (text : string) : M unit :=
  fun st =>
    match unencodable text with
    | Some msg => (Raise (Exc (OtherException msg)), st)
    | None => (Return tt, mkState (heap st) (stdout st ++ text)%string (stderr st))
    end.

(** [print(s)] writes [s] and then the line break, which every encoder
    takes; when [s] cannot be encoded nothing of the line is written.
    [print()] is [print] of the empty text. *)
Definition print (s : string) : M unit :=
  fun st =>
    match unencodable s with
    | Some msg => (Raise (Exc (OtherException msg)), st)
    | None =>
        (Return tt,
         mkState (heap st) (stdout st ++ s ++ PyStr.newline)%string (stderr st))
    end.

(** [parse_args]: one positional [msi_path] with [nargs="?"] and the
    default [pokerok.msi].  The help is printed to standard output and
    ends the program with status 0; a rejected command line ends it with
    status 2 after the usage error went to standard error. *)
Definition parse_args (argv : list arg) : M Namespace :=
  match argparse_scan argv None false with
  | Parsed (Some value) => ret (mkNamespace value)
  | Parsed None => ret (mkNamespace "pokerok.msi")
  | Help => stdout_write (format_help rt) ;;; raise (SystemExit 0)
  | Rejected => stderr_write (format_error rt argv) ;;; raise (SystemExit 2)
  end.

(** The [while True] loop over [view.Fetch()]. *)
Fixpoint fetch_loop (fetches : list (result MsiRecord)) (properties : ref) : M unit :=
  match fetches with
  | [] => ret tt
  | f :: rest =>
      record <- lift f ;;
      name <- lift (GetString record 1) ;;
      value <- lift (GetString record 2) ;;
      dict_setitem properties name value ;;;
      fetch_loop rest properties
  end.

Definition read_msi_properties (path : string) : M ref :=
  db <- lift (OpenDatabase rt path MSIDBOPEN_READONLY) ;;
  view <- try_except
            (view <- lift (OpenView db "SELECT * FROM Property") ;;
             lift (Execute view) ;;;
             ret view)
            (fun e =>
               match e with
               | MSIError m =>
                   raise (Exc (MSIError ("Не удалось открыть таблицу Property: " ++ m)))
               | OtherException _ => raise (Exc e)
               end) ;;
  properties <- new_dict ;;
  fetch_loop (Fetch view) properties ;;;
  ret properties.

Definition keys : list (string * string) :=
  [ ("ProductName", "ProductName");
    ("ProductCode", "ProductCode");
    ("ProductVersion", "ProductVersion");
    ("Manufacturer", "Manufacturer") ].

Definition print_key_properties (properties : ref) : M unit :=
  print "=== Основная информация о продукте ===" ;;;
  for_each keys (fun kl =>
    let '(key, label) := kl in
    value <- dict_get properties key ;;
    let value := match value with
                 | None => "не указано"
                 | Some v => v
                 end in
    print (PyStr.ljust 14 label ++ ": " ++ value)) ;;;
  print EmptyString.

Definition print_all_properties (properties : ref) : M unit :=
  print "=== Все свойства MSI (таблица Property) ===" ;;;
  names <- dict_keys properties ;;
  for_each (sorted (str_lower rt) names) (fun name =>
    value <- dict_getitem properties name ;;
    print (name ++ " = " ++ value)).

Definition main (argv : list arg) : M Z :=
  args <- parse_args argv ;;
  let path := msi_path args in
  if negb (os_path_exists rt path) || negb (os_path_isfile rt path) then
    stderr_write ("Файл " ++ PyStr.dquote ++ path ++ PyStr.dquote
                  ++ " не найден или не является файлом." ++ PyStr.newline) ;;;
    ret 1%Z
  else
    try_except
      (properties <- read_msi_properties path ;;
       empty <- dict_not properties ;;
       if empty then
         stderr_write ("Таблица Property не найдена или не содержит записей."
                       ++ PyStr.newline) ;;;
         ret 2%Z
       else
         print_key_properties properties ;;;
         print_all_properties properties ;;;
         ret 0%Z)
      (fun e =>
         match e with
         | MSIError _ =>
             stderr_write ("Ошибка при чтении файла MSI: таблица Property недоступна "
                           ++ "или файл поврежден." ++ PyStr.newline
                           ++ "Подробнее: " ++ str_of e ++ PyStr.newline) ;;;
             ret 2%Z
         | OtherException _ =>
             stderr_write ("Непредвиденная ошибка: " ++ str_of e ++ PyStr.newline) ;;;
             ret 3%Z
         end).

End Script.

(** ** What the libraries deliver for a path

    The vocabulary in which the behaviour of the script is stated: the
    rows a view hands out, and the first library call that fails. *)

Definition query : string := "SELECT * FROM Property".

(** The two columns of a record, read in the order of the loop body. *)
Definition row_of (record : MsiRecord) : result (string * string) :=
  match GetString record 1 with
  | Err e => Err e
  | Ok name =>
      match GetString record 2 with
      | Err e => Err e
      | Ok value => Ok (name, value)
      end
  end.

(** The rows read until [Fetch()] returns [None] or a call fails, and the
    exception of that call. *)
Fixpoint fetched (fetches : list (result MsiRecord))
  : list (string * string) * option exception :=
  match fetches with
  | [] => ([], None)
  | Err e :: _ => ([], Some e)
  | Ok record :: rest =>
      match row_of record with
      | Err e => ([], Some e)
      | Ok row => let (rows, err) := fetched rest in (row :: rows, err)
      end
  end.

(** The database opens, the view on the Property table opens and
    executes. *)
Definition opens (rt : Runtime) (path : string) (view : View) : Prop :=
  exists db,
    OpenDatabase rt path MSIDBOPEN_READONLY = Ok db /\
    OpenView db query = Ok view /\
    Execute view = Ok tt.

(** The Property table of the package is read to its end and has these
    rows. *)
Definition table_rows (rt : Runtime) (path : string)
    (rows : list (string * string)) : Prop :=
  exists view, opens rt path view /\ fetched (Fetch view) = (rows, None).

(** The file is not a package [msilib] can open. *)
Definition not_a_package (rt : Runtime) (path : string) (e : exception) : Prop :=
  OpenDatabase rt path MSIDBOPEN_READONLY = Err e.

(** The package opens, the query on its Property table fails. *)
Definition no_property_table (rt : Runtime) (path : string) (e : exception) : Prop :=
  exists db,
    OpenDatabase rt path MSIDBOPEN_READONLY = Ok db /\
    (OpenView db query = Err e \/
     exists view, OpenView db query = Ok view /\ Execute view = Err e).

(** The query runs, reading its rows fails part of the way. *)
Definition corrupt_rows (rt : Runtime) (path : string) (e : exception) : Prop :=
  exists view rows,
    opens rt path view /\ fetched (Fetch view) = (rows, Some e).

(** The first library call that fails on [path] raises [e]. *)
Definition library_failure (rt : Runtime) (path : string) (e : exception) : Prop :=
  not_a_package rt path e \/ no_property_table rt path e \/ corrupt_rows rt path e.

(** A database-access error on [path]. *)
Definition msi_problem (rt : Runtime) (path : string) : Prop :=
  exists msg, library_failure rt path (MSIError msg).

(** [msilib] reports its failures as [MSIError]. *)
Definition msilib_contract (rt : Runtime) (path : string) : Prop :=
  forall e, library_failure rt path e -> exists msg, e = MSIError msg.

(** The exception [read_msi_properties] raises when opening or executing
    the view raised [e]. *)
Definition reraised (e : exception) : exception :=
  match e with
  | MSIError m => MSIError ("Не удалось открыть таблицу Property: " ++ m)
  | OtherException _ => e
  end.

(** ** Command lines and paths *)

(** The command lines [parse_args] accepts, with the path each gives. *)
Definition accepted (argv : list arg) (path : string) : Prop :=
  (argv = [] /\ path = "pokerok.msi") \/ argv = [Positional path].

(** The path names an existing regular file. *)
Definition regular_file (rt : Runtime) (path : string) : bool :=
  os_path_exists rt path && os_path_isfile rt path.

(** The positional words of a command line, and whether a word is an
    option. *)
Definition positional_words (argv : list arg) : list string :=
  flat_map (fun a => match a with Positional s => [s] | _ => [] end) argv.

Definition is_option (a : arg) : bool :=
  match a with
  | HelpOption | HelpWithValue _ | UnknownOption _ => true
  | Positional _ | Separator => false
  end.

(** ** The report, line by line *)

(** What the encoder of standard output raises for a text. *)
Definition encode_error (rt : Runtime) (text : string) : option string :=
  if (text =? EmptyString)%string then None else stdout_encode_error rt text.

(** The text of lines, each ended by a line feed. *)
Fixpoint lines_text (lines : list string) : string :=
  match lines with
  | [] => EmptyString
  | l :: rest => (l ++ String "010"%char (lines_text rest))%string
  end.

(** The lines an encoder takes before the first one it cannot encode, and
    what it raises there. *)
Fixpoint taken (enc : string -> option string) (lines : list string)
  : list string * option string :=
  match lines with
  | [] => ([], None)
  | l :: rest =>
      match enc l with
      | Some msg => ([], Some msg)
      | None => let (t, e) := taken enc rest in (l :: t, e)
      end
  end.

(** Printing [lines] one after the other from the state [s]: the lines
    taken are appended to standard output, and the error of the first
    line that cannot be encoded is raised. *)
Definition written (rt : Runtime) (lines : list string) (s : State)
  : outcome unit * State :=
  (match snd (taken (encode_error rt) lines) with
   | None => Return tt
   | Some msg => Raise (Exc (OtherException msg))
   end,
   mkState (heap s)
           (stdout s ++ lines_text (fst (taken (encode_error rt) lines)))%string
           (stderr s)).

(** The result of printing [lines] from the state [s] when nothing is
    raised but what the encoder of standard output raises: either the
    statement returns and all the lines are on standard output, or it
    raises the error of a line that cannot be encoded, the lines before
    it can, and they are what went to standard output.  The heap and
    standard error are as before. *)
Definition prints_until_encode_error (rt : Runtime) (lines : list string)
    (s : State) (result : outcome unit * State) : Prop :=
  heap (snd result) = heap s /\
  stderr (snd result) = stderr s /\
  ((fst result = Return tt /\
    stdout (snd result) = (stdout s ++ lines_text lines)%string)
   \/
   exists before line after msg,
     lines = before ++ line :: after /\
     (forall l, In l before -> encode_error rt l = None) /\
     encode_error rt line = Some msg /\
     fst result = Raise (Exc (OtherException msg)) /\
     stdout (snd result) = (stdout s ++ lines_text before)%string).

(** The lines of the key block for the dictionary [d]. *)
Definition key_lines (d : PyDict.dict) : list string :=
  [ "=== Основная информация о продукте ===";
    ("ProductName   : "
     ++ match PyDict.get "ProductName" d with Some v => v | None => "не указано" end)%string;
    ("ProductCode   : "
     ++ match PyDict.get "ProductCode" d with Some v => v | None => "не указано" end)%string;
    ("ProductVersion: "
     ++ match PyDict.get "ProductVersion" d with Some v => v | None => "не указано" end)%string;
    ("Manufacturer  : "
     ++ match PyDict.get "Manufacturer" d with Some v => v | None => "не указано" end)%string;
    EmptyString ].

Definition entry_line (e : string * string) : string :=
  (fst e ++ " = " ++ snd e)%string.

(** The lines of the full list for the entries in their listed order. *)
Definition all_lines (entries : list (string * string)) : list string :=
  "=== Все свойства MSI (таблица Property) ===" :: map entry_line entries.

(** The entries of [d] in the order of the full listing. *)
Definition listed (lower : string -> string) (d : PyDict.dict)
  : list (string * string) :=
  map (fun name => (name, match PyDict.get name d with
                          | Some v => v
                          | None => EmptyString
                          end))
      (sorted lower (PyDict.keys d)).

(** The lines of both blocks. *)
Definition report_lines (lower : string -> string) (d : PyDict.dict) : list string :=
  key_lines d ++ all_lines (listed lower d).

(** What is raised at the first line of the report that standard output
    cannot encode; [None] when it takes the whole report. *)
Definition report_error (rt : Runtime) (d : PyDict.dict) : option string :=
  snd (taken (encode_error rt) (report_lines (str_lower rt) d)).

(** ** Exit codes and the outcome classes of a run on [path] *)

Definition exit_classes (rt : Runtime) (path : string) (code : Z) : Prop :=
  (code = 0%Z <->
   regular_file rt path = true /\
   exists rows,
     table_rows rt path rows /\ PyDict.scan rows [] <> [] /\
     report_error rt (PyDict.scan rows []) = None) /\
  (code = 1%Z <-> regular_file rt path = false) /\
  (code = 2%Z <->
   regular_file rt path = true /\
   (msi_problem rt path \/
    exists rows, table_rows rt path rows /\ PyDict.scan rows [] = [])) /\
  (code = 3%Z <->
   regular_file rt path = true /\
   ((exists msg, library_failure rt path (OtherException msg)) \/
    (exists rows msg,
        table_rows rt path rows /\ PyDict.scan rows [] <> [] /\
        report_error rt (PyDict.scan rows []) = Some msg))).

(** What [main] writes to standard error for a path that is no file. *)
Definition no_file_message (path : string) : string :=
  ("Файл " ++ PyStr.dquote ++ path ++ PyStr.dquote
   ++ " не найден или не является файлом." ++ PyStr.newline)%string.


(** ** A concrete runtime

    A file system with the one file [pokerok.msi], which is a package
    whose Property table has the given rows; [str.lower] on ASCII; a
    standard output that encodes every text. *)

Definition record_of (row : string * string) : MsiRecord :=
  mkRecord (fun i =>
    match i with
    | 1 => Ok (fst row)
    | 2 => Ok (snd row)
    | _ => Err (MSIError "field")
    end).

Definition package (rows : list (string * string)) : Database :=
  mkDatabase (fun sql =>
    if (sql =? query)%string
    then Ok (mkView (Ok tt) (map (fun row => Ok (record_of row)) rows))
    else Err (MSIError "query")).

Definition runtime_of (rows : list (string * string)) : Runtime :=
  mkRuntime PyStr.ascii_lower
            (fun p => (p =? "pokerok.msi")%string)
            (fun p => (p =? "pokerok.msi")%string)
            (fun p _ => if (p =? "pokerok.msi")%string
                        then Ok (package rows)
                        else Err (MSIError "open"))
            "help" (fun _ => "usage") (fun _ => None).

(** The same with a standard output that encodes ASCII text only. *)
Definition runtime_ascii_stdout (rows : list (string * string)) : Runtime :=
  mkRuntime PyStr.ascii_lower
            (fun p => (p =? "pokerok.msi")%string)
            (fun p => (p =? "pokerok.msi")%string)
            (fun p _ => if (p =? "pokerok.msi")%string
                        then Ok (package rows)
                        else Err (MSIError "open"))
            "help" (fun _ => "usage")
            (fun text => if PyStr.is_ascii text then None
                         else Some "ordinal not in range(128)").

(** A lone surrogate, as the three bytes that stand for it: the byte 237
    followed by a byte from 160 on. *)
Fixpoint has_surrogate (s : string) : bool :=
  match s with
  | EmptyString => false
  | String c rest =>
      match rest with
      | EmptyString => false
      | String c' _ =>
          ((nat_of_ascii c =? 237)%nat && (160 <=? nat_of_ascii c')%nat)
          || has_surrogate rest
      end
  end.

(** The same with a UTF-8 standard output, which encodes every text but
    one with a lone surrogate in it. *)
Definition runtime_utf8_stdout (rows : list (string * string)) : Runtime :=
  mkRuntime PyStr.ascii_lower
            (fun p => (p =? "pokerok.msi")%string)
            (fun p => (p =? "pokerok.msi")%string)
            (fun p _ => if (p =? "pokerok.msi")%string
                        then Ok (package rows)
                        else Err (MSIError "open"))
            "help" (fun _ => "usage")
            (fun text => if has_surrogate text then Some "surrogates not allowed"
                         else None).

(** A value that is one lone surrogate. *)
Definition lone_surrogate : string :=
  String (ascii_of_nat 237) (String (ascii_of_nat 160) (String (ascii_of_nat 128) EmptyString)).

(** A runtime in which every path is a file that [msilib] fails to open,
    raising [e]. *)
Definition runtime_failing (e : exception) : Runtime :=
  mkRuntime PyStr.ascii_lower (fun _ => true) (fun _ => true)
            (fun _ _ => Err e) "help" (fun _ => "usage") (fun _ => None).

(** ** Further vocabulary: diagnostics, key order, failing packages *)

(** What [main] writes to standard error when the reader raised an
    [MSIError] whose text is [detail], when it raised another exception,
    and when the mapping is empty. *)
Definition database_error_message (detail : string) : string :=
  ("Ошибка при чтении файла MSI: таблица Property недоступна или файл поврежден."
   ++ PyStr.newline ++ "Подробнее: " ++ detail ++ PyStr.newline)%string.

Definition unexpected_error_message (detail : string) : string :=
  ("Непредвиденная ошибка: " ++ detail ++ PyStr.newline)%string.

Definition empty_table_message : string :=
  ("Таблица Property не найдена или не содержит записей." ++ PyStr.newline)%string.

(** The text the reader puts before the message of an [MSIError] raised
    by [OpenView] or [Execute]. *)
Definition view_error_prefix : string := "Не удалось открыть таблицу Property: ".

(** The names of a list, each kept where it first occurs. *)
Fixpoint first_occurrences (names : list string) : list string :=
  match names with
  | [] => []
  | x :: rest =>
      x :: filter (fun y => negb (y =? x)%string) (first_occurrences rest)
  end.

(** [name] is none of [seen]. *)
Definition unseen (seen : list string) (name : string) : bool :=
  negb (existsb (fun k => (k =? name)%string) seen).

(** The value of the last row that carries [name]. *)
Fixpoint last_value (name : string) (rows : list (string * string)) : option string :=
  match rows with
  | [] => None
  | (k, v) :: rest =>
      match last_value name rest with
      | Some later => Some later
      | None => if (k =? name)%string then Some v else None
      end
  end.

(** A runtime in which every path is a package without a readable
    Property table: opening the view raises [e]. *)
Definition runtime_without_table (e : exception) : Runtime :=
  mkRuntime PyStr.ascii_lower (fun _ => true) (fun _ => true)
            (fun _ _ => Ok (mkDatabase (fun _ => Err e)))
            "help" (fun _ => "usage") (fun _ => None).

(** A runtime in which every path is a package whose view hands out
    [rows] and then fails, raising [e]. *)
Definition runtime_corrupt (rows : list (string * string)) (e : exception) : Runtime :=
  mkRuntime PyStr.ascii_lower (fun _ => true) (fun _ => true)
            (fun _ _ =>
               Ok (mkDatabase (fun _ =>
                 Ok (mkView (Ok tt)
                            (map (fun row => Ok (record_of row)) rows ++ [Err e])))))
            "help" (fun _ => "usage") (fun _ => None).

(** * Properties *)

(** ** Strings *)

Module PyStrFacts.
Import PyStr.

Lemma append_nil_r (s : string) : (s ++ EmptyString)%string = s.
Proof. induction s as [|c s IH]; simpl; [reflexivity | now rewrite IH]. Qed.

Lemma append_assoc (a b c : string) :
  ((a ++ b) ++ c)%string = (a ++ (b ++ c))%string.
Proof. induction a as [|x a IH]; simpl; [reflexivity | now rewrite IH]. Qed.

Lemma length_append (a b : string) :
  String.length (a ++ b) = String.length a + String.length b.
Proof. induction a as [|x a IH]; simpl; [reflexivity | now rewrite IH]. Qed.

Lemma append_neq (s t : string) : t <> EmptyString -> (s ++ t)%string <> s.
Proof.
  intros Ht H. apply (f_equal String.length) in H.
  rewrite length_append in H. destruct t; [congruence | simpl in H; lia].
Qed.

Lemma ascii_compare_refl (c : ascii) : Ascii.compare c c = Eq.
Proof. unfold Ascii.compare. apply N.compare_refl. Qed.

Lemma ascii_compare_lt_trans (x y z : ascii) :
  Ascii.compare x y = Lt -> Ascii.compare y z = Lt -> Ascii.compare x z = Lt.
Proof.
  unfold Ascii.compare. rewrite !N.compare_lt_iff. apply N.lt_trans.
Qed.

Lemma compare_refl (s : string) : String.compare s s = Eq.
Proof.
  induction s as [|c s IH]; simpl; [reflexivity|].
  now rewrite ascii_compare_refl.
Qed.

Lemma ltb_irrefl (s : string) : (s <? s)%string = false.
Proof. unfold String.ltb. now rewrite compare_refl. Qed.

Lemma leb_refl (s : string) : (s <=? s)%string = true.
Proof. unfold String.leb. now rewrite compare_refl. Qed.

Lemma ltb_false_leb (a b : string) :
  (a <? b)%string = false -> (b <=? a)%string = true.
Proof.
  unfold String.ltb, String.leb. rewrite (String.compare_antisym b a).
  destruct (String.compare a b); simpl; congruence.
Qed.

Lemma ltb_true_leb (a b : string) :
  (a <? b)%string = true -> (a <=? b)%string = true.
Proof.
  unfold String.ltb, String.leb. destruct (String.compare a b); congruence.
Qed.

Lemma ltb_true_neq (a b : string) : (a <? b)%string = true -> a <> b.
Proof. intros H ->. rewrite ltb_irrefl in H. discriminate. Qed.

Lemma leb_trans (a : string) : forall b c,
  (a <=? b)%string = true -> (b <=? c)%string = true -> (a <=? c)%string = true.
Proof.
  unfold String.leb.
  induction a as [|x a IH]; intros [|y b] [|z c]; simpl; try congruence.
  intros H1 H2. specialize (IH b c).
  destruct (Ascii.compare x y) eqn:Exy; try discriminate;
    destruct (Ascii.compare y z) eqn:Eyz; try discriminate.
  - apply Ascii.compare_eq_iff in Exy, Eyz. subst.
    rewrite ascii_compare_refl. auto.
  - apply Ascii.compare_eq_iff in Exy. subst. now rewrite Eyz.
  - apply Ascii.compare_eq_iff in Eyz. subst. now rewrite Exy.
  - now rewrite (ascii_compare_lt_trans _ _ _ Exy Eyz).
Qed.

End PyStrFacts.

(** ** The sort *)

Section SortedFacts.

Variable key : string -> string.

Lemma key_le_refl (a : string) : key_le key a a.
Proof. apply PyStrFacts.leb_refl. Qed.

Lemma key_le_trans (a b c : string) :
  key_le key a b -> key_le key b c -> key_le key a c.
Proof. apply PyStrFacts.leb_trans. Qed.

Lemma key_le_antisym (a b : string) :
  key_le key a b -> key_le key b a -> key a = key b.
Proof. apply String.leb_antisym. Qed.

Lemma insert_Permutation (x : string) (l : list string) :
  Permutation (insert key x l) (x :: l).
Proof.
  induction l as [|y l IH]; simpl; [reflexivity|].
  destruct (key_lt key y x); [|reflexivity].
  rewrite IH. apply perm_swap.
Qed.

(** The result holds the same names, each as often as before. *)
Lemma sorted_Permutation (l : list string) : Permutation (sorted key l) l.
Proof.
  induction l as [|x l IH]; simpl; [reflexivity|].
  now rewrite insert_Permutation, IH.
Qed.

Lemma sorted_In (l : list string) (x : string) : In x (sorted key l) <-> In x l.
Proof.
  split; apply Permutation_in;
    [apply sorted_Permutation | apply Permutation_sym, sorted_Permutation].
Qed.

Lemma insert_StronglySorted (x : string) (l : list string) :
  StronglySorted (key_le key) l -> StronglySorted (key_le key) (insert key x l).
Proof.
  induction 1 as [|y l Hl IH Hy]; simpl.
  - repeat constructor.
  - destruct (key_lt key y x) eqn:E.
    + constructor; [exact IH|].
      apply (Permutation_Forall (Permutation_sym (insert_Permutation x l))).
      constructor; [|exact Hy].
      now apply PyStrFacts.ltb_true_leb.
    + assert (Hxy : key_le key x y) by now apply PyStrFacts.ltb_false_leb.
      constructor; [now constructor|].
      constructor; [exact Hxy|].
      eapply Forall_impl; [|exact Hy].
      intros z Hz. now apply key_le_trans with y.
Qed.

(** The result is ordered by the key. *)
Lemma sorted_StronglySorted (l : list string) :
  StronglySorted (key_le key) (sorted key l).
Proof.
  induction l as [|x l IH]; simpl; [constructor|].
  now apply insert_StronglySorted.
Qed.

Lemma sorted_Sorted (l : list string) : Sorted (key_le key) (sorted key l).
Proof. apply StronglySorted_Sorted, sorted_StronglySorted. Qed.

Lemma insert_stable (k x : string) (l : list string) :
  filter (same_key key k) (insert key x l) = filter (same_key key k) (x :: l).
Proof.
  induction l as [|y l IH]; [reflexivity|].
  simpl insert. destruct (key_lt key y x) eqn:E; [|reflexivity].
  simpl in *. rewrite IH. unfold same_key.
  destruct (String.eqb_spec (key x) k) as [Hx|Hx]; [|reflexivity].
  destruct (String.eqb_spec (key y) k) as [Hy|Hy]; [|reflexivity].
  apply PyStrFacts.ltb_true_neq in E. congruence.
Qed.

(** The sort is stable: names with the same key keep their order. *)
Lemma sorted_stable (k : string) (l : list string) :
  filter (same_key key k) (sorted key l) = filter (same_key key k) l.
Proof.
  induction l as [|x l IH]; [reflexivity|].
  simpl sorted. rewrite insert_stable. simpl. now rewrite IH.
Qed.

(** Where no two names share a key, the ordered arrangement is unique. *)
Lemma StronglySorted_unique (l1 : list string) : forall l2,
  StronglySorted (key_le key) l1 ->
  StronglySorted (key_le key) l2 ->
  Permutation l1 l2 ->
  (forall a b, In a l1 -> In b l1 -> key a = key b -> a = b) ->
  l1 = l2.
Proof.
  induction l1 as [|a l1 IH]; intros l2 S1 S2 P Inj.
  - now apply Permutation_nil in P.
  - destruct l2 as [|b l2].
    + apply Permutation_sym, Permutation_nil in P. discriminate.
    + apply StronglySorted_inv in S1 as [S1 Ha].
      apply StronglySorted_inv in S2 as [S2 Hb].
      rewrite Forall_forall in Ha, Hb.
      assert (Hab : key_le key a b).
      { assert (In b (a :: l1)) as [->|Hin]
          by (apply (Permutation_in _ (Permutation_sym P)); now left).
        - apply key_le_refl.
        - now apply Ha. }
      assert (Hba : key_le key b a).
      { assert (In a (b :: l2)) as [->|Hin]
          by (apply (Permutation_in _ P); now left).
        - apply key_le_refl.
        - now apply Hb. }
      assert (a = b).
      { apply Inj; [now left| |now apply key_le_antisym].
        apply (Permutation_in _ (Permutation_sym P)). now left. }
      subst b. f_equal.
      apply IH; auto.
      * now apply Permutation_cons_inv in P.
      * intros x y Hx Hy. apply Inj; now right.
Qed.

(** Two ordered lists that hold, key by key, the same names in the same
order are equal. *)
Lemma stable_sorted_unique (l1 : list string) : forall l2,
  StronglySorted (key_le key) l1 ->
  StronglySorted (key_le key) l2 ->
  (forall k, filter (same_key key k) l1 = filter (same_key key k) l2) ->
  l1 = l2.
Proof.
  induction l1 as [|a l1 IH]; intros [|b l2] S1 S2 F.
  - reflexivity.
  - specialize (F (key b)). cbn in F. unfold same_key in F at 1.
    rewrite String.eqb_refl in F. discriminate.
  - specialize (F (key a)). cbn in F. unfold same_key in F at 1.
    rewrite String.eqb_refl in F. discriminate.
  - apply StronglySorted_inv in S1 as [S1 Ha].
    apply StronglySorted_inv in S2 as [S2 Hb].
    rewrite Forall_forall in Ha, Hb.
    assert (Hin : forall x l l', filter (same_key key (key x)) (x :: l)
                                 = filter (same_key key (key x)) l' -> In x l').
    { intros x l l' H. cbn in H. unfold same_key in H at 1.
      rewrite String.eqb_refl in H.
      eapply (proj1 (filter_In _ x l')). rewrite <- H. now left. }
    assert (Hba : key_le key b a).
    { destruct (Hin a l1 (b :: l2) (F (key a))) as [->|H];
        [apply key_le_refl | now apply Hb]. }
    assert (Hab : key_le key a b).
    { destruct (Hin b l2 (a :: l1) (eq_sym (F (key b)))) as [->|H];
        [apply key_le_refl | now apply Ha]. }
    assert (Hk : key a = key b) by now apply key_le_antisym.
    assert (Heq : a = b).
    { specialize (F (key a)). cbn in F.
      change (same_key key (key a) a) with (key a =? key a)%string in F.
      change (same_key key (key a) b) with (key b =? key a)%string in F.
      rewrite <- Hk, String.eqb_refl in F. congruence. }
    subst b. f_equal. apply IH; auto.
    intros k. specialize (F k). cbn in F.
    destruct (same_key key k a); congruence.
Qed.

(** So [sorted] is the only stable sort by the key: a list that is
ordered by the key and keeps, key by key, the names of [l] in their
order is [sorted key l]. *)
Lemma sorted_characterised (l l' : list string) :
  StronglySorted (key_le key) l' ->
  (forall k, filter (same_key key k) l' = filter (same_key key k) l) ->
  l' = sorted key l.
Proof.
  intros S F. apply stable_sorted_unique; [assumption | apply sorted_StronglySorted |].
  intros k. now rewrite sorted_stable.
Qed.

End SortedFacts.

(** ** Dictionaries *)

Module PyDictFacts.
Import PyDict.

Lemma get_setitem_same (k v : string) (d : dict) :
  get k (setitem k v d) = Some v.
Proof.
  induction d as [|[k0 v0] d IH]; simpl.
  - now rewrite String.eqb_refl.
  - destruct (String.eqb_spec k0 k) as [->|Hne]; simpl.
    + now rewrite String.eqb_refl.
    + destruct (String.eqb_spec k0 k); [contradiction | exact IH].
Qed.

Lemma get_setitem_other (k k' v : string) (d : dict) :
  k' <> k -> get k' (setitem k v d) = get k' d.
Proof.
  intros Hne. induction d as [|[k0 v0] d IH]; simpl.
  - destruct (String.eqb_spec k k'); [congruence | reflexivity].
  - destruct (String.eqb_spec k0 k) as [->|Hk]; simpl.
    + destruct (String.eqb_spec k k'); [congruence | reflexivity].
    + now rewrite IH.
Qed.

Lemma setitem_fresh (k v : string) (d : dict) :
  ~ In k (keys d) -> setitem k v d = d ++ [(k, v)].
Proof.
  induction d as [|[k0 v0] d IH]; simpl; intros Hnin; [reflexivity|].
  destruct (String.eqb_spec k0 k) as [->|Hk].
  - exfalso. apply Hnin. now left.
  - rewrite IH; [reflexivity|]. intros Hin. apply Hnin. now right.
Qed.

Lemma keys_setitem_present (k v : string) (d : dict) :
  In k (keys d) -> keys (setitem k v d) = keys d.
Proof.
  induction d as [|[k0 v0] d IH]; simpl; intros Hin; [contradiction|].
  destruct (String.eqb_spec k0 k) as [->|Hk]; simpl; [reflexivity|].
  rewrite IH; [reflexivity|]. destruct Hin; [contradiction | assumption].
Qed.

Lemma In_keys_setitem (x k v : string) (d : dict) :
  In x (keys (setitem k v d)) <-> x = k \/ In x (keys d).
Proof.
  destruct (in_dec string_dec k (keys d)) as [Hin|Hnin].
  - rewrite keys_setitem_present by assumption.
    split; [now right | intros [->|H]; assumption].
  - rewrite setitem_fresh by assumption.
    unfold keys. rewrite map_app, in_app_iff. simpl.
    split; intros [H|H]; auto.
    destruct H as [<-|[]]. now left.
Qed.

(** Assignment keeps the keys distinct. *)
Lemma wf_setitem (k v : string) (d : dict) : wf d -> wf (setitem k v d).
Proof.
  unfold wf. intros Hd.
  destruct (in_dec string_dec k (keys d)) as [Hin|Hnin].
  - now rewrite keys_setitem_present.
  - rewrite setitem_fresh by assumption.
    unfold keys in *. rewrite map_app. simpl.
    apply NoDup_app; [assumption | repeat constructor; simpl; tauto |].
    intros x Hx [<-|[]]. contradiction.
Qed.

Lemma wf_scan (rows : list (string * string)) : forall d,
  wf d -> wf (scan rows d).
Proof.
  unfold scan.
  induction rows as [|[k v] rows IH]; simpl; intros d Hd; [assumption|].
  apply IH. now apply wf_setitem.
Qed.

Lemma scan_app (rows1 rows2 : list (string * string)) (d : dict) :
  scan (rows1 ++ rows2) d = scan rows2 (scan rows1 d).
Proof. unfold scan. apply fold_left_app. Qed.

Lemma get_scan_absent (k : string) (rows : list (string * string)) : forall d,
  ~ In k (map fst rows) -> get k (scan rows d) = get k d.
Proof.
  unfold scan.
  induction rows as [|[k0 v0] rows IH]; simpl; intros d Hnin; [reflexivity|].
  rewrite IH by tauto. apply get_setitem_other. intros ->. tauto.
Qed.

(** The value bound to a name is the one of the last row with it. *)
Lemma get_scan_last (rows1 rows2 : list (string * string)) (k v : string) (d : dict) :
  ~ In k (map fst rows2) ->
  get k (scan (rows1 ++ (k, v) :: rows2) d) = Some v.
Proof.
  intros Hnin. rewrite scan_app.
  change (scan ((k, v) :: rows2) (scan rows1 d))
    with (scan rows2 (setitem k v (scan rows1 d))).
  rewrite get_scan_absent by assumption.
  apply get_setitem_same.
Qed.

Lemma keys_scan (x : string) (rows : list (string * string)) : forall d,
  In x (keys (scan rows d)) <-> In x (map fst rows) \/ In x (keys d).
Proof.
  unfold scan.
  induction rows as [|[k v] rows IH]; simpl; intros d; [tauto|].
  rewrite IH, In_keys_setitem. intuition congruence.
Qed.

(** Rows with distinct names are kept as they are, in their order. *)
Lemma scan_distinct (rows : list (string * string)) : forall d,
  NoDup (map fst rows) ->
  (forall k, In k (map fst rows) -> ~ In k (keys d)) ->
  scan rows d = d ++ rows.
Proof.
  unfold scan.
  induction rows as [|[k v] rows IH]; simpl; intros d Hnd Hfresh.
  - now rewrite app_nil_r.
  - inversion Hnd as [|? ? Hk Hnd']; subst.
    rewrite setitem_fresh by (apply Hfresh; now left).
    rewrite IH; [now rewrite <- app_assoc | assumption |].
    intros x Hx. unfold keys. rewrite map_app, in_app_iff. simpl.
    intros [Hin|[<-|[]]]; [|contradiction].
    apply (Hfresh x); [now right | exact Hin].
Qed.

Lemma get_None_iff (k : string) (d : dict) :
  get k d = None <-> ~ In k (keys d).
Proof.
  induction d as [|[k0 v0] d IH]; simpl; [tauto|].
  destruct (String.eqb_spec k0 k) as [->|Hk].
  - split; [discriminate | intros H; exfalso; apply H; now left].
  - rewrite IH. tauto.
Qed.

Lemma get_In (k : string) (d : dict) :
  In k (keys d) -> exists v, get k d = Some v.
Proof.
  intros Hin. destruct (get k d) as [v|] eqn:E; [now exists v|].
  apply get_None_iff in E. contradiction.
Qed.

(** Looking up every key of a dictionary gives back its entries. *)
Lemma entries_of_keys (d : dict) :
  wf d ->
  map (fun name => (name, match get name d with
                          | Some v => v
                          | None => EmptyString
                          end)) (keys d) = d.
Proof.
  unfold wf. induction d as [|[k v] d IH]; simpl; intros Hd; [reflexivity|].
  inversion Hd as [|? ? Hk Hd']; subst.
  rewrite String.eqb_refl. f_equal.
  rewrite <- (IH Hd') at 2. apply map_ext_in.
  intros x Hx. destruct (String.eqb_spec k x) as [->|Hne]; [contradiction|].
  reflexivity.
Qed.

End PyDictFacts.

(** ** The heap *)

Lemma length_update (r : ref) (d : PyDict.dict) (h : list PyDict.dict) :
  length (update r d h) = length h.
Proof.
  revert r. induction h as [|d0 h IH]; intros [|r]; simpl; auto.
Qed.

Lemma deref_update (r : ref) (d : PyDict.dict) (h : list PyDict.dict) :
  r < length h -> deref (update r d h) r = d.
Proof.
  unfold deref. revert r.
  induction h as [|d0 h IH]; intros [|r]; simpl; intros Hr; try lia; auto.
  apply IH. lia.
Qed.

Lemma update_update (r : ref) (d1 d2 : PyDict.dict) (h : list PyDict.dict) :
  update r d2 (update r d1 h) = update r d2 h.
Proof.
  revert r. induction h as [|d0 h IH]; intros [|r]; simpl; auto.
  now rewrite IH.
Qed.

Lemma update_deref (r : ref) (h : list PyDict.dict) :
  r < length h -> update r (deref h r) h = h.
Proof.
  unfold deref. revert r.
  induction h as [|d0 h IH]; intros [|r]; simpl; intros Hr; try lia; auto.
  rewrite IH; [reflexivity | lia].
Qed.

Lemma update_new (d0 d : PyDict.dict) (h : list PyDict.dict) :
  update (length h) d (h ++ [d0]) = h ++ [d].
Proof. induction h as [|x h IH]; simpl; [reflexivity | now rewrite IH]. Qed.

Lemma deref_new (d : PyDict.dict) (h : list PyDict.dict) :
  deref (h ++ [d]) (length h) = d.
Proof. unfold deref. induction h as [|x h IH]; simpl; auto. Qed.

(** ** Running the statements of the script *)

Lemma state_eta (s : State) : mkState (heap s) (stdout s) (stderr s) = s.
Proof. now destruct s. Qed.

(** The fetch loop assigns the rows it reads to the dictionary, in their
    order, and raises what the first failing call raised. *)
Lemma fetch_loop_run (fetches : list (result MsiRecord)) : forall (r : ref) (s : State),
  r < length (heap s) ->
  fetch_loop fetches r s =
    (match snd (fetched fetches) with
     | None => Return tt
     | Some e => Raise (Exc e)
     end,
     mkState (update r (PyDict.scan (fst (fetched fetches)) (deref (heap s) r)) (heap s))
             (stdout s) (stderr s)).
Proof.
  induction fetches as [|f rest IH]; intros r s Hr.
  - simpl. unfold ret. now rewrite update_deref, state_eta.
  - simpl. unfold bind at 1. destruct f as [record|e]; simpl.
    + unfold row_of, bind at 1.
      destruct (GetString record 1) as [name|e]; simpl.
      * unfold bind at 1.
        destruct (GetString record 2) as [value|e]; simpl.
        -- unfold bind at 1, dict_setitem at 1.
           rewrite IH by (simpl; now rewrite length_update).
           simpl. rewrite deref_update by assumption. rewrite update_update.
           now destruct (fetched rest) as [rows err].
        -- now rewrite update_deref, state_eta.
      * now rewrite update_deref, state_eta.
    + now rewrite update_deref, state_eta.
Qed.

Section ReaderFacts.

Variable rt : Runtime.
Variable path : string.

Lemma read_not_a_package (e : exception) (s : State) :
  not_a_package rt path e ->
  read_msi_properties rt path s = (Raise (Exc e), s).
Proof.
  unfold not_a_package, read_msi_properties. intros H.
  unfold bind at 1. now rewrite H.
Qed.

Lemma read_no_property_table (e : exception) (s : State) :
  no_property_table rt path e ->
  read_msi_properties rt path s = (Raise (Exc (reraised e)), s).
Proof.
  unfold no_property_table, read_msi_properties, query.
  intros (db & Hdb & H).
  unfold bind at 1. rewrite Hdb. simpl.
  unfold bind at 1, try_except, bind at 1.
  destruct H as [H|(view & Hview & H)].
  - rewrite H. simpl. now destruct e.
  - rewrite Hview. simpl. unfold bind at 1. rewrite H. simpl. now destruct e.
Qed.

Lemma read_opens (view : View) (s : State) :
  opens rt path view ->
  read_msi_properties rt path s =
    (match snd (fetched (Fetch view)) with
     | None => Return (length (heap s))
     | Some e => Raise (Exc e)
     end,
     mkState (heap s ++ [PyDict.scan (fst (fetched (Fetch view))) []])
             (stdout s) (stderr s)).
Proof.
  unfold opens, read_msi_properties, query.
  intros (db & Hdb & Hview & Hexec).
  unfold bind at 1. rewrite Hdb. simpl.
  unfold bind at 1, try_except, bind at 1. rewrite Hview. simpl.
  unfold bind at 1. rewrite Hexec. simpl.
  unfold bind at 1, new_dict. unfold bind at 1.
  rewrite fetch_loop_run by (simpl; rewrite length_app; simpl; lia).
  simpl. rewrite deref_new, update_new.
  now destruct (snd (fetched (Fetch view))).
Qed.

(** Either the table is read to its end, or some library call fails. *)
Lemma library_cases :
  (exists rows, table_rows rt path rows) \/ (exists e, library_failure rt path e).
Proof.
  unfold table_rows, library_failure, not_a_package, no_property_table,
    corrupt_rows, opens.
  destruct (OpenDatabase rt path MSIDBOPEN_READONLY) as [db|e] eqn:Hdb;
    [|right; exists e; now left].
  destruct (OpenView db query) as [view|e] eqn:Hview;
    [|right; exists e; right; left; exists db; auto].
  destruct (Execute view) as [[]|e] eqn:Hexec;
    [|right; exists e; right; left; exists db; split; [reflexivity|];
      right; exists view; auto].
  destruct (fetched (Fetch view)) as [rows [e|]] eqn:Hf.
  - right. exists e. right. right. exists view, rows. eauto.
  - left. exists rows, view. eauto.
Qed.

Lemma read_table_rows (rows : list (string * string)) (s : State) :
  table_rows rt path rows ->
  read_msi_properties rt path s =
    (Return (length (heap s)),
     mkState (heap s ++ [PyDict.scan rows []]) (stdout s) (stderr s)).
Proof.
  intros (view & Hopen & Hf). rewrite (read_opens s Hopen). now rewrite Hf.
Qed.

(** A failing library call makes the reader raise, and leaves the
    output streams as they were. *)
Lemma read_library_failure (e : exception) (s : State) :
  library_failure rt path e ->
  exists s',
    read_msi_properties rt path s = (Raise (Exc (reraised e)), s') /\
    stdout s' = stdout s /\ stderr s' = stderr s
    \/
    read_msi_properties rt path s = (Raise (Exc e), s') /\
    stdout s' = stdout s /\ stderr s' = stderr s.
Proof.
  intros [H|[H|(view & rows & Hopen & Hf)]].
  - exists s. right. now rewrite (read_not_a_package s H).
  - exists s. left. now rewrite (read_no_property_table s H).
  - eexists. right. rewrite (read_opens s Hopen), Hf. simpl. eauto.
Qed.

End ReaderFacts.

(** ** Printing *)

Lemma lines_text_app (l1 l2 : list string) :
  lines_text (l1 ++ l2) = (lines_text l1 ++ lines_text l2)%string.
Proof.
  induction l1 as [|x l1 IH]; [reflexivity|].
  cbn [app lines_text]. rewrite IH, PyStrFacts.append_assoc. reflexivity.
Qed.

Lemma taken_app (enc : string -> option string) (l1 l2 : list string) :
  taken enc (l1 ++ l2)
  = match snd (taken enc l1) with
    | Some msg => taken enc l1
    | None => (fst (taken enc l1) ++ fst (taken enc l2), snd (taken enc l2))
    end.
Proof.
  induction l1 as [|x l1 IH]; cbn [app taken].
  - now destruct (taken enc l2).
  - destruct (enc x); [reflexivity|]. rewrite IH.
    destruct (taken enc l1) as [t [msg|]]; cbn [fst snd]; [reflexivity|].
    now destruct (taken enc l2).
Qed.

(** An encoder that takes every line takes them all. *)
Lemma taken_all (enc : string -> option string) (lines : list string) :
  (forall l, In l lines -> enc l = None) -> taken enc lines = (lines, None).
Proof.
  induction lines as [|x lines IH]; intros H; [reflexivity|].
  cbn [taken]. rewrite (H x) by now left.
  rewrite IH; [reflexivity|]. intros l Hl. apply H. now right.
Qed.

Lemma taken_None (enc : string -> option string) (lines : list string) :
  snd (taken enc lines) = None -> fst (taken enc lines) = lines.
Proof.
  induction lines as [|x lines IH]; [reflexivity|].
  cbn [taken]. destruct (enc x); [discriminate|].
  destruct (taken enc lines) as [t e]. cbn [fst snd] in *.
  intros H. now rewrite (IH H).
Qed.

(** What an encoder raises, it raises for one of the lines. *)
Lemma taken_Some (enc : string -> option string) (lines : list string) (msg : string) :
  snd (taken enc lines) = Some msg -> exists l, In l lines /\ enc l = Some msg.
Proof.
  induction lines as [|x lines IH]; [discriminate|].
  cbn [taken]. destruct (enc x) as [m|] eqn:E.
  - intros [= <-]. exists x. split; [now left | exact E].
  - destruct (taken enc lines) as [t e]. cbn [snd] in *.
    intros H. destruct (IH H) as (l & Hl & He). exists l. split; [now right | exact He].
Qed.

(** The lines taken are the lines before the first that cannot be
    encoded. *)
Lemma taken_split (enc : string -> option string) (lines : list string) (msg : string) :
  snd (taken enc lines) = Some msg ->
  exists line after,
    lines = fst (taken enc lines) ++ line :: after /\
    (forall l, In l (fst (taken enc lines)) -> enc l = None) /\
    enc line = Some msg.
Proof.
  induction lines as [|x lines IH]; [discriminate|].
  cbn [taken]. destruct (enc x) as [m|] eqn:E.
  - intros [= <-]. exists x, lines. cbn [fst app].
    split; [reflexivity|]. split; [intros l []|exact E].
  - destruct (taken enc lines) as [t e]. cbn [fst snd] in *.
    intros H. destruct (IH H) as (line & after & Hl & Ht & He).
    exists line, after. split; [cbn [app]; now rewrite <- Hl|].
    split; [|exact He]. intros l [<-|Hin]; [exact E | now apply Ht].
Qed.

Lemma written_all (rt : Runtime) (lines : list string) (s : State) :
  (forall l, In l lines -> encode_error rt l = None) ->
  written rt lines s
  = (Return tt, mkState (heap s) (stdout s ++ lines_text lines)%string (stderr s)).
Proof. intros H. unfold written. now rewrite (taken_all _ _ H). Qed.

Lemma written_prints (rt : Runtime) (lines : list string) (s : State) :
  prints_until_encode_error rt lines s (written rt lines s).
Proof.
  unfold prints_until_encode_error, written. cbn [fst snd heap stdout stderr].
  split; [reflexivity|]. split; [reflexivity|].
  destruct (snd (taken (encode_error rt) lines)) as [msg|] eqn:E.
  - right. destruct (taken_split _ _ E) as (line & after & Hl & Ht & He).
    exists (fst (taken (encode_error rt) lines)), line, after, msg. auto.
  - left. now rewrite (taken_None _ _ E).
Qed.

Section PrintFacts.

Variable rt : Runtime.

Lemma print_written (l : string) (s : State) :
  print rt l s = written rt [l] s.
Proof.
  unfold print, written. cbn [taken].
  change (unencodable rt l) with (encode_error rt l).
  destruct (encode_error rt l); cbn [fst snd lines_text];
    [now rewrite PyStrFacts.append_nil_r, state_eta | reflexivity].
Qed.

(** Two printing statements in a row print the lines of both. *)
Lemma bind_written (m1 m2 : M unit) (l1 l2 : list string) (s : State) :
  m1 s = written rt l1 s ->
  (forall out, m2 (mkState (heap s) out (stderr s))
               = written rt l2 (mkState (heap s) out (stderr s))) ->
  (m1 ;;; m2) s = written rt (l1 ++ l2) s.
Proof.
  intros H1 H2. unfold bind. rewrite H1. unfold written at 1.
  unfold written at 1. rewrite taken_app.
  destruct (taken (encode_error rt) l1) as [t1 [msg|]]; cbn [fst snd];
    [reflexivity|].
  rewrite H2. unfold written. cbn [heap stdout stderr].
  now rewrite lines_text_app, PyStrFacts.append_assoc.
Qed.

(** A loop whose body prints one line per element prints these lines. *)
Lemma for_each_written {A : Type} (body : A -> M unit) (f : A -> string)
    (h : list PyDict.dict) (err : string) (l : list A) :
  (forall x, In x l -> forall out,
      body x (mkState h out err) = print rt (f x) (mkState h out err)) ->
  forall out,
    for_each l body (mkState h out err) = written rt (map f l) (mkState h out err).
Proof.
  induction l as [|x l IH]; intros Hbody out.
  - cbn. unfold ret, written. cbn. now rewrite PyStrFacts.append_nil_r.
  - cbn [for_each map].
    apply (@bind_written (body x) (for_each l body) [f x] (map f l)).
    + rewrite Hbody by now left. apply print_written.
    + intros out'. apply IH. intros y Hy. apply Hbody. now right.
Qed.

Lemma print_key_properties_run (r : ref) (s : State) :
  print_key_properties rt r s = written rt (key_lines (deref (heap s) r)) s.
Proof.
  destruct s as [h out err]. unfold print_key_properties.
  apply (@bind_written _ _ [_] (_ :: _ :: _ :: _ :: [_])).
  - apply print_written.
  - intros out1. cbn [heap stderr].
    apply (@bind_written _ _ (_ :: _ :: _ :: [_]) [_]).
    + apply (@for_each_written _ _
               (fun kl => (PyStr.ljust 14 (snd kl) ++ ": "
                           ++ match PyDict.get (fst kl) (deref h r) with
                              | Some v => v
                              | None => "не указано"
                              end)%string)).
      intros [key label] _ out2. unfold bind, dict_get. cbn [heap fst snd].
      now destruct (PyDict.get key (deref h r)).
    + intros out2. apply print_written.
Qed.

Lemma print_all_properties_run (r : ref) (s : State) :
  print_all_properties rt r s
  = written rt (all_lines (listed (str_lower rt) (deref (heap s) r))) s.
Proof.
  destruct s as [h out err]. unfold print_all_properties, all_lines.
  apply (@bind_written _ _ [_] _).
  - apply print_written.
  - intros out1. cbn [heap stderr]. unfold bind at 1, dict_keys. cbn [heap].
    unfold listed. rewrite map_map.
    apply (@for_each_written _ _
             (fun name => entry_line (name, match PyDict.get name (deref h r) with
                                            | Some v => v
                                            | None => EmptyString
                                            end))).
    intros name Hin out2.
    apply sorted_In, PyDictFacts.get_In in Hin. destruct Hin as [v Hv].
    unfold bind, dict_getitem. cbn [heap]. now rewrite Hv.
Qed.

(** Both printers in a row print the report. *)
Lemma report_run (r : ref) (s : State) :
  (print_key_properties rt r ;;; print_all_properties rt r) s
  = written rt (report_lines (str_lower rt) (deref (heap s) r)) s.
Proof.
  apply bind_written.
  - apply print_key_properties_run.
  - intros out. exact (print_all_properties_run r (mkState (heap s) out (stderr s))).
Qed.

End PrintFacts.

(** ** The command line *)

Lemma parse_args_accepted (rt : Runtime) (argv : list arg) (path : string) (s : State) :
  accepted argv path ->
  parse_args rt argv s = (Return (mkNamespace path), s).
Proof. intros [[-> ->]| ->]; reflexivity. Qed.

(** What [parse_args] returns does not depend on the state, and it
    leaves the state as it is. *)
Lemma parse_args_returns (rt : Runtime) (argv : list arg) (ns : Namespace)
    (s s' : State) :
  parse_args rt argv s = (Return ns, s') ->
  s' = s /\ forall s0, parse_args rt argv s0 = (Return ns, s0).
Proof.
  unfold parse_args.
  destruct (argparse_scan argv None false) as [[value|]| |].
  - intros [= <- <-]. split; reflexivity.
  - intros [= <- <-]. split; reflexivity.
  - unfold bind, stdout_write. destruct (unencodable rt (format_help rt)); discriminate.
  - discriminate.
Qed.

(** A parse that goes through met no option, and a second positional
    word only if none was there before. *)
Lemma argparse_scan_Parsed (argv : list arg) : forall value left_over result,
  argparse_scan argv value left_over = Parsed result ->
  left_over = false /\
  (forall a, In a argv -> is_option a = false) /\
  match value with
  | Some v => positional_words argv = [] /\ result = Some v
  | None =>
      (positional_words argv = [] /\ result = None) \/
      (exists p, positional_words argv = [p] /\ result = Some p)
  end.
Proof.
  induction argv as [|a argv IH]; intros value left_over result H.
  - cbn in H. destruct left_over; [discriminate|]. injection H as <-.
    split; [reflexivity|]. split; [intros a []|].
    destruct value; cbn; auto.
  - destruct a as [p| |o| |v]; cbn [argparse_scan] in H; try discriminate.
    + destruct value as [v|].
      * apply IH in H as (Hl & _ & _). discriminate.
      * apply IH in H as (Hl & Ho & Hw & Hr).
        split; [exact Hl|]. split.
        -- intros a [<-|Ha]; [reflexivity | now apply Ho].
        -- right. exists p.
           change (positional_words (Positional p :: argv))
             with (p :: positional_words argv).
           now rewrite Hw.
    + apply IH in H as (Hl & _ & _). discriminate.
    + apply IH in H as (Hl & Ho & Hv).
      split; [exact Hl|]. split.
      * intros a [<-|Ha]; [reflexivity | now apply Ho].
      * exact Hv.
Qed.

(** Without an option the parse goes through exactly when nothing was
    left over and there is at most one positional word. *)
Lemma argparse_scan_no_option (argv : list arg) : forall value left_over,
  (forall a, In a argv -> is_option a = false) ->
  argparse_scan argv value left_over
  = match value, positional_words argv with
    | None, [] => if left_over then Rejected else Parsed None
    | None, [p] => if left_over then Rejected else Parsed (Some p)
    | Some v, [] => if left_over then Rejected else Parsed (Some v)
    | _, _ => Rejected
    end.
Proof.
  induction argv as [|a argv IH]; intros value left_over Ho.
  - cbn. now destruct value, left_over.
  - assert (Ha := Ho a (or_introl eq_refl)).
    assert (Ho' : forall b, In b argv -> is_option b = false)
      by (intros b Hb; apply Ho; now right).
    destruct a as [p| |o| |v]; try discriminate; cbn [argparse_scan].
    + change (positional_words (Positional p :: argv))
        with (p :: positional_words argv).
      destruct value as [v|]; rewrite (IH _ _ Ho');
        now destruct (positional_words argv).
    + now rewrite (IH _ _ Ho').
Qed.

(** ** The entry point *)

Lemma bind_assoc {A B C : Type} (m : M A) (f : A -> M B) (g : B -> M C) (s : State) :
  bind m (fun a => bind (f a) g) s = bind (bind m f) g s.
Proof.
  unfold bind. destruct (m s) as [[a|r] s1]; [|reflexivity].
  reflexivity.
Qed.

Lemma is_empty_setitem (k v : string) (d : PyDict.dict) :
  PyDict.is_empty (PyDict.setitem k v d) = false.
Proof.
  destruct d as [|[k0 v0] d]; simpl; [reflexivity|].
  now destruct (k0 =? k)%string.
Qed.

Lemma is_empty_scan (rows : list (string * string)) : forall d,
  PyDict.is_empty d = false -> PyDict.is_empty (PyDict.scan rows d) = false.
Proof.
  unfold PyDict.scan.
  induction rows as [|[k v] rows IH]; simpl; intros d Hd; [assumption|].
  apply IH, is_empty_setitem.
Qed.

Lemma is_empty_scan_rows (rows : list (string * string)) :
  rows <> [] -> PyDict.is_empty (PyDict.scan rows []) = false.
Proof.
  destruct rows as [|[k v] rows]; [congruence|]. intros _.
  apply (is_empty_scan rows). reflexivity.
Qed.

Lemma scan_nil_inv (rows : list (string * string)) :
  PyDict.scan rows [] = [] -> rows = [].
Proof.
  intros H. destruct rows as [|row rows]; [reflexivity|].
  assert (Hne : row :: rows <> []) by discriminate.
  apply is_empty_scan_rows in Hne. rewrite H in Hne. discriminate.
Qed.

Section MainFacts.

Variable rt : Runtime.
Variable argv : list arg.
Variable path : string.
Hypothesis Hparse : forall s, parse_args rt argv s = (Return (mkNamespace path), s).

Lemma main_not_regular_file (s : State) :
  regular_file rt path = false ->
  main rt argv s =
    (Return 1%Z,
     mkState (heap s) (stdout s) (stderr s ++ no_file_message path)%string).
Proof.
  unfold regular_file, main. intros H.
  unfold bind at 1. rewrite Hparse. cbn [msi_path].
  rewrite <- negb_andb, H. reflexivity.
Qed.

Lemma main_empty_table (s : State) :
  regular_file rt path = true ->
  table_rows rt path [] ->
  main rt argv s =
    (Return 2%Z,
     mkState (heap s ++ [[]]) (stdout s) (stderr s ++ empty_table_message)%string).
Proof.
  unfold regular_file, main. intros H Hrows.
  unfold bind at 1. rewrite Hparse. cbn [msi_path].
  rewrite <- negb_andb, H. cbn [negb].
  unfold try_except, bind at 1.
  rewrite (read_table_rows s Hrows).
  unfold bind at 1, dict_not. cbn [heap stdout stderr].
  rewrite deref_new. reflexivity.
Qed.

(** With rows in the table the report is printed; the run ends with
    code 0 when standard output takes all of it, and with code 3 at the
    first line it cannot encode. *)
Lemma main_rows (rows : list (string * string)) (s : State) :
  regular_file rt path = true ->
  table_rows rt path rows ->
  rows <> [] ->
  main rt argv s =
    match report_error rt (PyDict.scan rows []) with
    | None =>
        (Return 0%Z,
         mkState (heap s ++ [PyDict.scan rows []])
                 (stdout s
                  ++ lines_text (report_lines (str_lower rt) (PyDict.scan rows [])))%string
                 (stderr s))
    | Some msg =>
        (Return 3%Z,
         mkState (heap s ++ [PyDict.scan rows []])
                 (stdout s
                  ++ lines_text
                       (fst (taken (encode_error rt)
                                   (report_lines (str_lower rt) (PyDict.scan rows [])))))%string
                 (stderr s ++ unexpected_error_message msg)%string)
    end.
Proof.
  unfold regular_file, main. intros H Hrows Hne.
  unfold bind at 1. rewrite Hparse. cbn [msi_path].
  rewrite <- negb_andb, H. cbn [negb].
  unfold try_except, bind at 1.
  rewrite (read_table_rows s Hrows).
  unfold bind at 1, dict_not. cbn [heap stdout stderr].
  rewrite deref_new, (is_empty_scan_rows Hne).
  rewrite bind_assoc. unfold bind at 1. rewrite report_run.
  cbn [heap]. rewrite deref_new. unfold written, report_error.
  cbn [heap stdout stderr].
  destruct (taken (encode_error rt)
                  (report_lines (str_lower rt) (PyDict.scan rows []))) as [t [msg|]] eqn:E;
    cbn [fst snd]; [reflexivity|].
  assert (Ht := taken_None (encode_error rt)
                  (report_lines (str_lower rt) (PyDict.scan rows []))).
  rewrite E in Ht. cbn [fst snd] in Ht. now rewrite (Ht eq_refl).
Qed.

Lemma main_reader_raises (s s1 : State) (e : exception) :
  regular_file rt path = true ->
  read_msi_properties rt path s = (Raise (Exc e), s1) ->
  main rt argv s
  = (Return (match e with MSIError _ => 2 | OtherException _ => 3 end)%Z,
     mkState (heap s1) (stdout s1)
             (stderr s1
              ++ match e with
                 | MSIError m => database_error_message m
                 | OtherException m => unexpected_error_message m
                 end)%string).
Proof.
  unfold regular_file, main. intros H Hread.
  unfold bind at 1. rewrite Hparse.
  cbn [msi_path]. rewrite <- negb_andb, H. cbn [negb].
  unfold try_except, bind at 1. rewrite Hread.
  destruct e; reflexivity.
Qed.

Lemma main_library_failure (e : exception) (s : State) :
  regular_file rt path = true ->
  library_failure rt path e ->
  exists s',
    main rt argv s =
      (Return (match e with MSIError _ => 2 | OtherException _ => 3 end)%Z, s')
    /\ stdout s' = stdout s
    /\ stderr s' <> stderr s.
Proof.
  intros H Hfail.
  destruct (read_library_failure s Hfail) as (s1 & [(Hr & Ho & He)|(Hr & Ho & He)]);
    rewrite (@main_reader_raises s s1 _ H Hr); clear Hr;
    destruct e as [m|m]; cbn [reraised];
    (eexists; split; [reflexivity|]; cbn [heap stdout stderr]; split; [exact Ho|]);
    rewrite He; apply PyStrFacts.append_neq; cbn; discriminate.
Qed.

End MainFacts.

(** ** Exit codes *)

Section ExitCodes.

Variable rt : Runtime.
Variable argv : list arg.
Variable path : string.
Hypothesis Hparse : forall s, parse_args rt argv s = (Return (mkNamespace path), s).

(** The four outcome classes of a run on [path]. *)
Let reported : Prop :=
  regular_file rt path = true /\
  exists rows,
    table_rows rt path rows /\ PyDict.scan rows [] <> [] /\
    report_error rt (PyDict.scan rows []) = None.
Let no_file : Prop := regular_file rt path = false.
Let no_properties : Prop :=
  regular_file rt path = true /\
  (msi_problem rt path \/
   exists rows, table_rows rt path rows /\ PyDict.scan rows [] = []).
Let unexpected : Prop :=
  regular_file rt path = true /\
  ((exists msg, library_failure rt path (OtherException msg)) \/
   (exists rows msg,
       table_rows rt path rows /\ PyDict.scan rows [] <> [] /\
       report_error rt (PyDict.scan rows []) = Some msg)).

Lemma main_reported (s : State) :
  reported -> exists s', main rt argv s = (Return 0%Z, s').
Proof.
  intros (Hfile & rows & Hrows & Hne & Herr).
  assert (Hrows' : rows <> []) by (intros ->; now apply Hne).
  rewrite (@main_rows rt argv path Hparse rows s Hfile Hrows Hrows'), Herr. eauto.
Qed.

Lemma main_no_file (s : State) :
  no_file -> exists s', main rt argv s = (Return 1%Z, s').
Proof.
  intros H. rewrite (@main_not_regular_file rt argv path Hparse s H). eauto.
Qed.

Lemma main_no_properties (s : State) :
  no_properties -> exists s', main rt argv s = (Return 2%Z, s').
Proof.
  intros (Hfile & [(msg & Hfail)|(rows & Hrows & Hempty)]).
  - destruct (@main_library_failure rt argv path Hparse _ s Hfile Hfail) as (s' & H & _).
    now exists s'.
  - apply scan_nil_inv in Hempty. subst rows.
    rewrite (@main_empty_table rt argv path Hparse s Hfile Hrows). eauto.
Qed.

Lemma main_unexpected (s : State) :
  unexpected -> exists s', main rt argv s = (Return 3%Z, s').
Proof.
  intros (Hfile & [(msg & Hfail)|(rows & msg & Hrows & Hne & Herr)]).
  - destruct (@main_library_failure rt argv path Hparse _ s Hfile Hfail) as (s' & H & _).
    now exists s'.
  - assert (Hrows' : rows <> []) by (intros ->; now apply Hne).
    rewrite (@main_rows rt argv path Hparse rows s Hfile Hrows Hrows'), Herr. eauto.
Qed.

(** Every run belongs to one of the classes. *)
Lemma outcome_classes : reported \/ no_file \/ no_properties \/ unexpected.
Proof.
  unfold reported, no_file, no_properties, unexpected, msi_problem.
  destruct (regular_file rt path); [|auto].
  destruct (library_cases rt path) as [(rows & Hrows)|([msg|msg] & Hfail)].
  - destruct (PyDict.scan rows []) as [|entry d] eqn:E.
    + right. right. left. split; [reflexivity|]. right. exists rows. auto.
    + destruct (report_error rt (entry :: d)) as [msg|] eqn:Herr.
      * right. right. right. split; [reflexivity|]. right.
        exists rows, msg. rewrite E. repeat split; auto. discriminate.
      * left. split; [reflexivity|]. exists rows. rewrite E.
        repeat split; auto. discriminate.
  - right. right. left. split; [reflexivity|]. left. now exists msg.
  - right. right. right. split; [reflexivity|]. left. now exists msg.
Qed.

Lemma main_classified (s : State) :
  exists code s',
    main rt argv s = (Return code, s') /\
    (code = 0%Z <-> reported) /\
    (code = 1%Z <-> no_file) /\
    (code = 2%Z <-> no_properties) /\
    (code = 3%Z <-> unexpected).
Proof.
  assert (R0 := main_reported s).
  assert (R1 := main_no_file s).
  assert (R2 := main_no_properties s).
  assert (R3 := main_unexpected s).
  destruct outcome_classes as [H|[H|[H|H]]];
    [destruct (R0 H) as (s' & Hrun) | destruct (R1 H) as (s' & Hrun)
    | destruct (R2 H) as (s' & Hrun) | destruct (R3 H) as (s' & Hrun)];
    (eexists; exists s'; split; [exact Hrun|]);
    (split; [|split; [|split]]);
    (split;
     [ first [discriminate | intros _; exact H]
     | intros H';
       first [apply R0 in H' | apply R1 in H' | apply R2 in H' | apply R3 in H'];
       destruct H' as (s'' & Hrun'); rewrite Hrun in Hrun'; congruence ]).
Qed.

End ExitCodes.
(** ** More on dictionaries *)

Lemma get_In_entry (k v : string) (d : PyDict.dict) :
  PyDict.get k d = Some v -> In (k, v) d.
Proof.
  induction d as [|[k0 v0] d IH]; simpl; [discriminate|].
  destruct (String.eqb_spec k0 k) as [->|Hne].
  - intros [= ->]. now left.
  - intros H. right. now apply IH.
Qed.

Lemma get_of_entry (k v : string) (d : PyDict.dict) :
  PyDict.wf d -> In (k, v) d -> PyDict.get k d = Some v.
Proof.
  unfold PyDict.wf.
  induction d as [|[k0 v0] d IH]; simpl; intros Hd Hin; [contradiction|].
  inversion Hd as [|? ? Hk Hd']; subst.
  destruct Hin as [[= -> ->]|Hin].
  - now rewrite String.eqb_refl.
  - destruct (String.eqb_spec k0 k) as [->|Hne]; [|now apply IH].
    exfalso. apply Hk. change k with (fst (k, v)). now apply in_map.
Qed.

(** Dictionaries with the same entries bind every name alike. *)
Lemma get_Permutation (k : string) (d1 d2 : PyDict.dict) :
  PyDict.wf d1 -> Permutation d1 d2 -> PyDict.get k d1 = PyDict.get k d2.
Proof.
  intros Hd1 P.
  assert (Hd2 : PyDict.wf d2).
  { unfold PyDict.wf, PyDict.keys in *.
    eapply Permutation_NoDup; [apply Permutation_map, P | exact Hd1]. }
  destruct (PyDict.get k d1) as [v|] eqn:E.
  - symmetry. apply get_of_entry; [exact Hd2|].
    apply (Permutation_in _ P). now apply get_In_entry.
  - symmetry. apply PyDictFacts.get_None_iff.
    apply PyDictFacts.get_None_iff in E. intros Hin. apply E.
    unfold PyDict.keys in *.
    eapply Permutation_in; [apply Permutation_map, Permutation_sym, P | exact Hin].
Qed.

(** The listing holds the entries of the dictionary, each once. *)
Lemma listed_Permutation (lower : string -> string) (d : PyDict.dict) :
  PyDict.wf d -> Permutation (listed lower d) d.
Proof.
  intros Hd. unfold listed.
  eapply Permutation_trans.
  - apply Permutation_map, sorted_Permutation.
  - now rewrite (PyDictFacts.entries_of_keys Hd).
Qed.

Lemma listed_names (lower : string -> string) (d : PyDict.dict) :
  map fst (listed lower d) = sorted lower (PyDict.keys d).
Proof.
  unfold listed. rewrite map_map. cbn [fst]. apply map_id.
Qed.


(** ** Reading the table *)

Lemma table_rows_no_failure (rt : Runtime) (path : string)
    (rows : list (string * string)) (e : exception) :
  table_rows rt path rows -> library_failure rt path e -> False.
Proof.
  unfold table_rows, library_failure, not_a_package, no_property_table,
    corrupt_rows, opens.
  intros (view & (db & Hdb & Hview & Hexec) & Hf) [H|[H|H]].
  - congruence.
  - destruct H as (db' & Hdb' & [H|(view' & Hview' & H)]);
      assert (db' = db) by congruence; subst db'; [congruence|].
    assert (view' = view) by congruence. subst view'. congruence.
  - destruct H as (view' & rows' & (db' & Hdb' & Hview' & _) & Hf').
    assert (db' = db) by congruence. subst db'.
    assert (view' = view) by congruence. subst view'. congruence.
Qed.

Lemma fetched_records (rows : list (string * string)) :
  fetched (map (fun row => Ok (record_of row)) rows) = (rows, None).
Proof.
  induction rows as [|[k v] rows IH]; [reflexivity|].
  cbn [map fetched].
  change (row_of (record_of (k, v))) with (@Ok (string * string) (k, v)).
  now rewrite IH.
Qed.

Lemma runtime_of_table_rows (rows : list (string * string)) :
  table_rows (runtime_of rows) "pokerok.msi" rows.
Proof.
  eexists. split.
  - exists (package rows). repeat split; reflexivity.
  - apply fetched_records.
Qed.

(** ** The order of the full listing *)

Lemma scan_rows_distinct (rows : list (string * string)) :
  NoDup (map fst rows) -> PyDict.scan rows [] = rows.
Proof.
  intros Hnd. rewrite PyDictFacts.scan_distinct; auto.
Qed.

(** Two dictionaries with the same entries are listed alike when no two
    of their names have the same key. *)
Lemma listed_Permutation_eq (lower : string -> string) (d1 d2 : PyDict.dict) :
  PyDict.wf d1 ->
  Permutation d1 d2 ->
  (forall a b, In a (PyDict.keys d1) -> In b (PyDict.keys d1) ->
               lower a = lower b -> a = b) ->
  listed lower d1 = listed lower d2.
Proof.
  intros Hwf Hperm Hinj. unfold listed.
  assert (Hkeys : sorted lower (PyDict.keys d1) = sorted lower (PyDict.keys d2)).
  { apply StronglySorted_unique with (key := lower).
    - apply sorted_StronglySorted.
    - apply sorted_StronglySorted.
    - rewrite !sorted_Permutation. unfold PyDict.keys. now apply Permutation_map.
    - intros a b Ha Hb. apply Hinj; now apply (sorted_In lower). }
  rewrite <- Hkeys. apply map_ext. intros name.
  now rewrite (@get_Permutation name d1 d2 Hwf Hperm).
Qed.


(** ** What the reader leaves in the heap *)

Lemma deref_old (h new : list PyDict.dict) (r : ref) :
  r < length h -> deref (h ++ new) r = deref h r.
Proof. intros Hr. unfold deref. now apply app_nth1. Qed.


(** ** The order of the keys *)

Lemma unseen_In (seen : list string) (x : string) :
  unseen seen x = true <-> ~ In x seen.
Proof.
  unfold unseen. rewrite negb_true_iff. split.
  - intros H Hin.
    assert (E : existsb (fun k => (k =? x)%string) seen = true).
    { apply existsb_exists. exists x. split; [assumption | apply String.eqb_refl]. }
    congruence.
  - intros Hnin.
    destruct (existsb (fun k => (k =? x)%string) seen) eqn:E; [|reflexivity].
    apply existsb_exists in E as (k & Hk & Heq).
    apply String.eqb_eq in Heq. subst. contradiction.
Qed.

Lemma filter_filter_and {A : Type} (p q : A -> bool) (l : list A) :
  filter p (filter q l) = filter (fun x => q x && p x) l.
Proof.
  induction l as [|a l IH]; [reflexivity|]. simpl.
  destruct (q a); simpl; [destruct (p a)|]; now rewrite IH.
Qed.

Lemma filter_all {A : Type} (p : A -> bool) (l : list A) :
  (forall x, p x = true) -> filter p l = l.
Proof.
  intros Hp. induction l as [|a l IH]; [reflexivity|].
  simpl. now rewrite Hp, IH.
Qed.

Lemma keys_scan_order (rows : list (string * string)) : forall d,
  PyDict.keys (PyDict.scan rows d)
  = PyDict.keys d
    ++ filter (unseen (PyDict.keys d)) (first_occurrences (map fst rows)).
Proof.
  induction rows as [|[k v] rows IH]; intros d.
  - cbn. now rewrite app_nil_r.
  - change (PyDict.scan ((k, v) :: rows) d)
      with (PyDict.scan rows (PyDict.setitem k v d)).
    rewrite IH. cbn [map fst first_occurrences filter].
    destruct (unseen (PyDict.keys d) k) eqn:E.
    + assert (Hk : ~ In k (PyDict.keys d)) by now apply unseen_In.
      rewrite (PyDictFacts.setitem_fresh k v d Hk).
      unfold PyDict.keys at 1 2. rewrite map_app. cbn [map fst].
      fold (PyDict.keys d). rewrite <- app_assoc. cbn [app]. do 2 f_equal.
      rewrite filter_filter_and. apply filter_ext. intros x.
      unfold unseen. rewrite existsb_app. cbn [existsb].
      rewrite orb_false_r, negb_orb, andb_comm. f_equal.
      now rewrite String.eqb_sym.
    + assert (Hk : In k (PyDict.keys d)).
      { destruct (in_dec string_dec k (PyDict.keys d)) as [Hin|Hnin]; [assumption|].
        apply unseen_In in Hnin. congruence. }
      rewrite (PyDictFacts.keys_setitem_present k v d Hk). f_equal.
      rewrite filter_filter_and. apply filter_ext. intros x.
      destruct (unseen (PyDict.keys d) x) eqn:Ex; [|now rewrite andb_false_r].
      destruct (String.eqb_spec x k) as [->|Hne]; [congruence | reflexivity].
Qed.

Lemma keys_scan_first_occurrences (rows : list (string * string)) :
  PyDict.keys (PyDict.scan rows []) = first_occurrences (map fst rows).
Proof.
  rewrite keys_scan_order. cbn [PyDict.keys map app].
  now apply filter_all.
Qed.

Lemma get_scan_last_value (name : string) (rows : list (string * string)) : forall d,
  PyDict.get name (PyDict.scan rows d)
  = match last_value name rows with
    | Some v => Some v
    | None => PyDict.get name d
    end.
Proof.
  induction rows as [|[k v] rows IH]; intros d; [reflexivity|].
  change (PyDict.scan ((k, v) :: rows) d)
    with (PyDict.scan rows (PyDict.setitem k v d)).
  rewrite IH. cbn [last_value].
  destruct (last_value name rows); [reflexivity|].
  destruct (String.eqb_spec k name) as [->|Hne].
  - apply PyDictFacts.get_setitem_same.
  - apply PyDictFacts.get_setitem_other. congruence.
Qed.

(** ** Runs on concrete inputs *)

Example main_on_package :
  main (runtime_of [("ProductVersion", "1.0"); ("ProductName", "X")]) [] initial
  = (Return 0%Z,
     mkState [[("ProductVersion", "1.0"); ("ProductName", "X")]]
             "=== Основная информация о продукте ===
ProductName   : X
ProductCode   : не указано
ProductVersion: 1.0
Manufacturer  : не указано

=== Все свойства MSI (таблица Property) ===
ProductName = X
ProductVersion = 1.0
"
             EmptyString).
Proof. reflexivity. Qed.

Example main_on_empty_table :
  main (runtime_of []) [Positional "pokerok.msi"] initial
  = (Return 2%Z,
     mkState [[]] EmptyString
             "Таблица Property не найдена или не содержит записей.
").
Proof. reflexivity. Qed.

Example main_on_database_error :
  main (runtime_failing (MSIError "bad")) [] initial
  = (Return 2%Z,
     mkState [] EmptyString
             "Ошибка при чтении файла MSI: таблица Property недоступна или файл поврежден.
Подробнее: bad
").
Proof. reflexivity. Qed.

Example main_on_other_exception :
  main (runtime_failing (OtherException "boom")) [] initial
  = (Return 3%Z,
     mkState [] EmptyString "Непредвиденная ошибка: boom
").
Proof. reflexivity. Qed.

(** Standard output takes ASCII only: the first line of the report
    cannot be printed, and the catch-all clause ends the run. *)
Example main_on_ascii_stdout :
  main (runtime_ascii_stdout [("ProductName", "X")]) [] initial
  = (Return 3%Z,
     mkState [[("ProductName", "X")]] EmptyString
             "Непредвиденная ошибка: ordinal not in range(128)
").
Proof. reflexivity. Qed.

(** A value with a lone surrogate on a UTF-8 standard output: the report
    stops before the line of that value. *)
Example main_on_surrogate :
  main (runtime_utf8_stdout [("ProductName", lone_surrogate)]) [] initial
  = (Return 3%Z,
     mkState [[("ProductName", lone_surrogate)]]
             "=== Основная информация о продукте ===
"
             "Непредвиденная ошибка: surrogates not allowed
").
Proof. reflexivity. Qed.

Example main_on_help :
  main (runtime_of []) [Positional "a"; HelpOption] initial
  = (Raise (SystemExit 0), mkState [] "help" EmptyString).
Proof. reflexivity. Qed.

Example main_on_help_with_value :
  main (runtime_of []) [HelpWithValue "-hx"; HelpOption] initial
  = (Raise (SystemExit 2), mkState [] EmptyString "usage").
Proof. reflexivity. Qed.

Example main_on_two_words :
  main (runtime_of []) [Positional "a"; Positional "b"] initial
  = (Raise (SystemExit 2), mkState [] EmptyString "usage").
Proof. reflexivity. Qed.

Example main_on_separator :
  main (runtime_of []) [Positional "pokerok.msi"; Separator] initial
  = main (runtime_of []) [Positional "pokerok.msi"] initial
  /\ main (runtime_of []) [Separator] initial = main (runtime_of []) [] initial
  /\ main (runtime_of []) [Separator; Positional "-h"] initial
     = main (runtime_of []) [Positional "-h"] initial.
Proof. repeat split; reflexivity. Qed.

(** The help cannot be encoded: the exception leaves [main], which
    catches nothing around [parse_args]. *)
Example main_on_help_unencodable :
  main (mkRuntime PyStr.ascii_lower (fun _ => true) (fun _ => true)
                  (fun _ _ => Err (MSIError "open"))
                  "помощь" (fun _ => "usage")
                  (fun text => if PyStr.is_ascii text then None
                               else Some "ordinal not in range(128)"))
       [HelpOption] initial
  = (Raise (Exc (OtherException "ordinal not in range(128)")), initial).
Proof. reflexivity. Qed.

Example sorted_is_stable :
  sorted PyStr.ascii_lower ["b"; "a"; "B"; "A"] = ["a"; "A"; "b"; "B"].
Proof. reflexivity. Qed.

(** * The claims *)

(** C1.  A run of [main] in which [parse_args] returns ends with an exit
    code, the code is one of 0, 1, 2 and 3, and it is determined by the
    outcome class: 0 exactly when the path is a regular file, the
    Property mapping is not empty and standard output takes the whole
    report (both blocks are then on standard output and nothing went to
    standard error), 1 exactly when the path is not an existing regular
    file, 2 exactly when a database error is raised or the mapping is
    empty, 3 exactly when another exception is raised, by a library call
    or by printing a line of the report. *)
Theorem main_exit_code (rt : Runtime) (argv : list arg) (s : State)
    (ns : Namespace) (s1 : State) :
  parse_args rt argv s = (Return ns, s1) ->
  exists code s',
    main rt argv s = (Return code, s') /\
    (code = 0 \/ code = 1 \/ code = 2 \/ code = 3)%Z /\
    exit_classes rt (msi_path ns) code /\
    (code = 0%Z ->
     exists rows,
       table_rows rt (msi_path ns) rows /\
       stdout s'
       = (stdout s
          ++ lines_text (key_lines (PyDict.scan rows []))
          ++ lines_text (all_lines (listed (str_lower rt) (PyDict.scan rows []))))%string /\
       stderr s' = stderr s).
Proof.
  intros Hret. apply parse_args_returns in Hret as [_ Hparse].
  destruct ns as [path]. cbn [msi_path].
  destruct (@main_classified rt argv path Hparse s)
    as (code & s' & Hrun & H0 & H1 & H2 & H3).
  exists code, s'. split; [exact Hrun|]. split; [|split].
  - destruct (outcome_classes rt path) as [H|[H|[H|H]]].
    + left. now apply H0.
    + right. left. now apply H1.
    + right. right. left. now apply H2.
    + right. right. right. now apply H3.
  - unfold exit_classes. tauto.
  - intros Hcode. apply H0 in Hcode.
    destruct Hcode as (Hfile & rows & Hrows & Hne & Herr).
    exists rows. split; [exact Hrows|].
    assert (Hrows' : rows <> []) by (intros ->; now apply Hne).
    rewrite (@main_rows rt argv path Hparse rows s Hfile Hrows Hrows'), Herr in Hrun.
    apply (f_equal snd) in Hrun. cbn [snd] in Hrun. subst s'.
    cbn [stdout stderr]. split; [|reflexivity].
    unfold report_lines. now rewrite lines_text_app.
Qed.

Lemma main_exit_code_witness :
  parse_args (runtime_of [("ProductName", "X")]) [] initial
  = (Return (mkNamespace "pokerok.msi"), initial) /\
  exists code s',
    main (runtime_of [("ProductName", "X")]) [] initial = (Return code, s') /\
    (code = 0 \/ code = 1 \/ code = 2 \/ code = 3)%Z /\
    exit_classes (runtime_of [("ProductName", "X")]) "pokerok.msi" code /\
    (code = 0%Z ->
     exists rows,
       table_rows (runtime_of [("ProductName", "X")]) "pokerok.msi" rows /\
       stdout s'
       = (stdout initial
          ++ lines_text (key_lines (PyDict.scan rows []))
          ++ lines_text
               (all_lines (listed (str_lower (runtime_of [("ProductName", "X")]))
                                  (PyDict.scan rows []))))%string /\
       stderr s' = stderr initial).
Proof.
  assert (H : parse_args (runtime_of [("ProductName", "X")]) [] initial
              = (Return (mkNamespace "pokerok.msi"), initial)) by reflexivity.
  split; [exact H|].
  exact (@main_exit_code (runtime_of [("ProductName", "X")]) [] initial
           (mkNamespace "pokerok.msi") initial H).
Defined.




(** C3, as the code has it.  For two row sequences with distinct names
    that are permutations of each other, each full listing holds exactly
    these entries, ordered by the lower-cased name whatever the order of
    the rows; and the two listings are the same when no two names have
    the same lower-cased form. *)
Theorem listing_independent_of_row_order (rt : Runtime)
    (rows1 rows2 : list (string * string)) (r1 r2 : ref) (s1 s2 : State) :
  NoDup (map fst rows1) ->
  Permutation rows1 rows2 ->
  deref (heap s1) r1 = PyDict.scan rows1 [] ->
  deref (heap s2) r2 = PyDict.scan rows2 [] ->
  exists entries1 entries2,
    print_all_properties rt r1 s1
    = written rt ("=== Все свойства MSI (таблица Property) ==="
                  :: map entry_line entries1) s1 /\
    print_all_properties rt r2 s2
    = written rt ("=== Все свойства MSI (таблица Property) ==="
                  :: map entry_line entries2) s2 /\
    Permutation entries1 rows1 /\
    Permutation entries2 rows1 /\
    Sorted (key_le (str_lower rt)) (map fst entries1) /\
    Sorted (key_le (str_lower rt)) (map fst entries2) /\
    ((forall a b, In a (map fst rows1) -> In b (map fst rows1) ->
                  str_lower rt a = str_lower rt b -> a = b) ->
     entries1 = entries2).
Proof.
  intros Hnd Hperm H1 H2.
  assert (Hnd2 : NoDup (map fst rows2)).
  { eapply Permutation_NoDup; [apply Permutation_map, Hperm | exact Hnd]. }
  rewrite (@scan_rows_distinct rows1 Hnd) in H1.
  rewrite (@scan_rows_distinct rows2 Hnd2) in H2.
  exists (listed (str_lower rt) rows1), (listed (str_lower rt) rows2).
  rewrite !print_all_properties_run, H1, H2.
  split; [reflexivity|]. split; [reflexivity|].
  split; [now apply listed_Permutation|].
  split.
  { eapply Permutation_trans;
      [now apply listed_Permutation | now apply Permutation_sym]. }
  split; [rewrite listed_names; apply sorted_Sorted|].
  split; [rewrite listed_names; apply sorted_Sorted|].
  intros Hinj.
  exact (@listed_Permutation_eq (str_lower rt) rows1 rows2 Hnd Hperm Hinj).
Qed.

Lemma listing_independent_of_row_order_witness :
  NoDup (map fst [("b", "2"); ("A", "1")]) /\
  Permutation [("b", "2"); ("A", "1")] [("A", "1"); ("b", "2")] /\
  exists entries1 entries2,
    print_all_properties (runtime_of []) 0
      (mkState [[("b", "2"); ("A", "1")]] EmptyString EmptyString)
    = written (runtime_of [])
              ("=== Все свойства MSI (таблица Property) ==="
               :: map entry_line entries1)
              (mkState [[("b", "2"); ("A", "1")]] EmptyString EmptyString) /\
    print_all_properties (runtime_of []) 0
      (mkState [[("A", "1"); ("b", "2")]] EmptyString EmptyString)
    = written (runtime_of [])
              ("=== Все свойства MSI (таблица Property) ==="
               :: map entry_line entries2)
              (mkState [[("A", "1"); ("b", "2")]] EmptyString EmptyString) /\
    Permutation entries1 [("b", "2"); ("A", "1")] /\
    Permutation entries2 [("b", "2"); ("A", "1")] /\
    Sorted (key_le (str_lower (runtime_of []))) (map fst entries1) /\
    Sorted (key_le (str_lower (runtime_of []))) (map fst entries2) /\
    ((forall a b,
         In a (map fst [("b", "2"); ("A", "1")]) ->
         In b (map fst [("b", "2"); ("A", "1")]) ->
         str_lower (runtime_of []) a = str_lower (runtime_of []) b -> a = b) ->
     entries1 = entries2).
Proof.
  assert (Hnd : NoDup (map fst [("b", "2"); ("A", "1")])).
  { cbn. repeat constructor; cbn; intuition discriminate. }
  assert (Hperm : Permutation [("b", "2"); ("A", "1")] [("A", "1"); ("b", "2")])
    by apply perm_swap.
  split; [exact Hnd|]. split; [exact Hperm|].
  exact (@listing_independent_of_row_order (runtime_of [])
           [("b", "2"); ("A", "1")] [("A", "1"); ("b", "2")] 0 0
           (mkState [[("b", "2"); ("A", "1")]] EmptyString EmptyString)
           (mkState [[("A", "1"); ("b", "2")]] EmptyString EmptyString)
           Hnd Hperm eq_refl eq_refl).
Defined.

(** C3, as stated, fails: the rows a = 1, A = 2 have distinct names and
    are the same entries in either order, and the full listing follows
    the order of the rows, because [sorted] is stable and both names have
    the key a. *)
Lemma listing_depends_on_row_order :
  NoDup (map fst [("a", "1"); ("A", "2")]) /\
  Permutation [("a", "1"); ("A", "2")] [("A", "2"); ("a", "1")] /\
  print_all_properties (runtime_of []) 0
    (mkState [PyDict.scan [("a", "1"); ("A", "2")] []] EmptyString EmptyString)
  = (Return tt,
     mkState [[("a", "1"); ("A", "2")]]
             "=== Все свойства MSI (таблица Property) ===
a = 1
A = 2
"
             EmptyString) /\
  print_all_properties (runtime_of []) 0
    (mkState [PyDict.scan [("A", "2"); ("a", "1")] []] EmptyString EmptyString)
  = (Return tt,
     mkState [[("A", "2"); ("a", "1")]]
             "=== Все свойства MSI (таблица Property) ===
A = 2
a = 1
"
             EmptyString).
Proof.
  split; [|split; [apply perm_swap|]].
  - cbn. repeat constructor; cbn; intuition discriminate.
  - split; reflexivity.
Qed.

(** C4.  When the path argument does not name an existing regular file,
    [main] returns 1, appends its diagnostic to standard error and leaves
    standard output as it was. *)
Theorem main_missing_file (rt : Runtime) (argv : list arg) (path : string) (s : State) :
  accepted argv path ->
  regular_file rt path = false ->
  main rt argv s
  = (Return 1%Z,
     mkState (heap s) (stdout s) (stderr s ++ no_file_message path)%string)
  /\ no_file_message path <> EmptyString.
Proof.
  intros Hargv Hfile. split.
  - exact (@main_not_regular_file rt argv path
             (fun s0 => parse_args_accepted rt s0 Hargv) s Hfile).
  - unfold no_file_message. cbn. discriminate.
Qed.

Lemma main_missing_file_witness :
  accepted [Positional "setup.msi"] "setup.msi" /\
  regular_file (runtime_of []) "setup.msi" = false /\
  main (runtime_of []) [Positional "setup.msi"] initial
  = (Return 1%Z,
     mkState (heap initial) (stdout initial)
             (stderr initial ++ no_file_message "setup.msi")%string).
Proof.
  assert (Ha : accepted [Positional "setup.msi"] "setup.msi") by (right; reflexivity).
  assert (Hf : regular_file (runtime_of []) "setup.msi" = false) by reflexivity.
  split; [exact Ha|]. split; [exact Hf|].
  exact (proj1 (main_missing_file (runtime_of []) initial Ha Hf)).
Defined.

(** C5, as the code has it.  The reader returns a new dictionary that
    holds the names of the fetched rows, each once and in the order of
    its first row, bound to the value of its last row; or it raises
    [MSIError]; or it raises the other exception that a library call
    raised.  It raises [MSIError] exactly when there is a database-access
    error: the file does not open as a package, the query on the Property
    table fails, or reading the rows fails. *)
Theorem read_msi_properties_outcome (rt : Runtime) (path : string) (s : State) :
  ((exists rows d,
       table_rows rt path rows /\
       read_msi_properties rt path s
       = (Return (length (heap s)),
          mkState (heap s ++ [d]) (stdout s) (stderr s)) /\
       PyDict.keys d = first_occurrences (map fst rows) /\
       (forall name, PyDict.get name d = last_value name rows))
   \/
   (exists msg s',
       read_msi_properties rt path s = (Raise (Exc (MSIError msg)), s'))
   \/
   (exists msg s',
       library_failure rt path (OtherException msg) /\
       read_msi_properties rt path s = (Raise (Exc (OtherException msg)), s')))
  /\
  ((exists msg s',
       read_msi_properties rt path s = (Raise (Exc (MSIError msg)), s'))
   <->
   (exists msg,
       not_a_package rt path (MSIError msg) \/
       no_property_table rt path (MSIError msg) \/
       corrupt_rows rt path (MSIError msg))).
Proof.
  assert (Hraise : forall e, library_failure rt path e ->
            exists s',
              read_msi_properties rt path s
              = (Raise (Exc (match e with
                             | MSIError m => MSIError m
                             | OtherException m => OtherException m
                             end)), s')
              \/ exists m, e = MSIError m /\
                 read_msi_properties rt path s
                 = (Raise (Exc (MSIError (view_error_prefix ++ m))), s')).
  { intros e Hfail.
    destruct (read_library_failure s Hfail) as (s' & [(H & _)|(H & _)]);
      exists s'; destruct e as [m|m]; cbn [reraised] in H; eauto. }
  split.
  - destruct (library_cases rt path) as [(rows & Hrows)|([m|m] & Hfail)].
    + left. exists rows, (PyDict.scan rows []).
      split; [exact Hrows|]. split; [now apply read_table_rows|].
      split; [apply keys_scan_first_occurrences|].
      intros name. rewrite get_scan_last_value.
      now destruct (last_value name rows).
    + right. left. destruct (Hraise _ Hfail) as (s' & [H|(m' & _ & H)]); eauto.
    + right. right. exists m.
      destruct (Hraise _ Hfail) as (s' & [H|(m' & Heq & _)]); [eauto | discriminate].
  - split.
    + intros (msg & s' & Hrun).
      destruct (library_cases rt path) as [(rows & Hrows)|([m|m] & Hfail)].
      * rewrite (read_table_rows s Hrows) in Hrun. discriminate.
      * now exists m.
      * destruct (Hraise _ Hfail) as (s'' & [H|(m' & Heq & _)]);
          [rewrite H in Hrun | ]; discriminate.
    + intros (msg & Hfail).
      destruct (Hraise _ Hfail) as (s' & [H|(m' & _ & H)]); eauto.
Qed.

(** C5, as stated, fails: when [OpenDatabase] raises an exception that
    is no [MSIError], the reader neither returns a mapping nor raises
    [MSIError]; the exception passes through it. *)
Lemma read_msi_properties_other_exception :
  read_msi_properties (runtime_failing (OtherException "boom")) "pokerok.msi" initial
  = (Raise (Exc (OtherException "boom")), initial).
Proof. reflexivity. Qed.

(** C6.  The command line has one optional positional argument.  With
    no word the path is [pokerok.msi]; with one positional word it is
    that word.  [parse_args] returns exactly on the command lines that
    hold no option and at most one positional word (the separator may
    stand among them); with more positional words it ends with status 2.
    The program run with no argument is the program run on
    [pokerok.msi]. *)
Theorem parse_args_cli (rt : Runtime) (s : State) :
  parse_args rt [] s = (Return (mkNamespace "pokerok.msi"), s) /\
  (forall p, parse_args rt [Positional p] s = (Return (mkNamespace p), s)) /\
  (forall argv ns s',
      parse_args rt argv s = (Return ns, s') ->
      s' = s /\
      (forall a, In a argv -> is_option a = false) /\
      ((positional_words argv = [] /\ msi_path ns = "pokerok.msi") \/
       positional_words argv = [msi_path ns])) /\
  (forall argv,
      (forall a, In a argv -> is_option a = false) ->
      parse_args rt argv s
      = match positional_words argv with
        | [] => (Return (mkNamespace "pokerok.msi"), s)
        | [p] => (Return (mkNamespace p), s)
        | _ :: _ :: _ =>
            (Raise (SystemExit 2),
             mkState (heap s) (stdout s) (stderr s ++ format_error rt argv)%string)
        end) /\
  main rt [] s = main rt [Positional "pokerok.msi"] s.
Proof.
  split; [reflexivity|]. split; [reflexivity|]. split; [|split; [|reflexivity]].
  - intros argv ns s' H.
    destruct (parse_args_returns _ _ _ H) as [-> _]. split; [reflexivity|].
    unfold parse_args in H.
    destruct (argparse_scan argv None false) as [value| |] eqn:E.
    + apply argparse_scan_Parsed in E as (_ & Ho & Hw).
      split; [exact Ho|].
      destruct Hw as [[Hw ->]|(p & Hw & ->)]; injection H as <-; cbn [msi_path]; auto.
    + unfold bind, stdout_write in H.
      destruct (unencodable rt (format_help rt)); discriminate.
    + discriminate.
  - intros argv Ho. unfold parse_args.
    rewrite (argparse_scan_no_option argv None false Ho).
    destruct (positional_words argv) as [|p [|q l]]; reflexivity.
Qed.

(** C7, as the code has it.  Each printer, and the two in a row,
    terminates, and either returns normally with all its lines on
    standard output, or raises the error that standard output raises for
    the first of its lines that it cannot encode, with the lines before
    it on standard output; no other error is raised, in particular no
    [KeyError] for a name of the listing.  Where standard output encodes
    every text they return normally. *)
Theorem reporter_raises_only_encode_errors (rt : Runtime) (properties : ref)
    (s : State) :
  prints_until_encode_error rt
    (key_lines (deref (heap s) properties)) s
    (print_key_properties rt properties s) /\
  prints_until_encode_error rt
    (all_lines (listed (str_lower rt) (deref (heap s) properties))) s
    (print_all_properties rt properties s) /\
  prints_until_encode_error rt
    (key_lines (deref (heap s) properties)
     ++ all_lines (listed (str_lower rt) (deref (heap s) properties))) s
    ((print_key_properties rt properties ;;; print_all_properties rt properties) s) /\
  ((forall text, stdout_encode_error rt text = None) ->
   fst (print_key_properties rt properties s) = Return tt /\
   fst (print_all_properties rt properties s) = Return tt /\
   fst ((print_key_properties rt properties ;;; print_all_properties rt properties) s)
   = Return tt).
Proof.
  rewrite print_key_properties_run, print_all_properties_run, report_run.
  split; [apply written_prints|]. split; [apply written_prints|].
  split; [apply written_prints|].
  intros Henc.
  assert (Hall : forall lines l, In l lines -> encode_error rt l = None).
  { intros lines l _. unfold encode_error. rewrite Henc.
    now destruct (l =? EmptyString)%string. }
  rewrite !written_all by apply Hall. repeat split.
Qed.

(** C7, as stated, fails: on a standard output that encodes ASCII only
    the first line of the key block cannot be printed, and
    [print_key_properties] raises. *)
Lemma reporter_raises_on_ascii_stdout :
  print_key_properties (runtime_ascii_stdout []) 0
    (mkState [[("ProductName", "X")]] EmptyString EmptyString)
  = (Raise (Exc (OtherException "ordinal not in range(128)")),
     mkState [[("ProductName", "X")]] EmptyString EmptyString).
Proof. reflexivity. Qed.

(** C8.  Printing the two blocks leaves the dictionary as it is: after
    [print_key_properties] and [print_all_properties], whether they
    return or raise, the heap, and so the keys and values of the
    dictionary, are those before; and they return where standard output
    encodes every text. *)
Theorem reporter_keeps_properties (rt : Runtime) (properties : ref) (s : State) :
  exists o s',
    (print_key_properties rt properties ;;; print_all_properties rt properties) s
    = (o, s') /\
    heap s' = heap s /\
    deref (heap s') properties = deref (heap s) properties /\
    ((forall text, stdout_encode_error rt text = None) -> o = Return tt).
Proof.
  eexists. eexists. split.
  - apply report_run.
  - split; [reflexivity|]. split; [reflexivity|].
    intros Henc. rewrite taken_all; [reflexivity|].
    intros l _. unfold encode_error. rewrite Henc.
    now destruct (l =? EmptyString)%string.
Qed.

(** C9.  When several fetched rows carry the same property name, the
    dictionary the reader returns holds the name once, bound to the value
    of the last of these rows. *)
Theorem read_msi_properties_last_row_wins (rt : Runtime) (path : string) (s : State)
    (rows1 rows2 : list (string * string)) (name value : string) :
  table_rows rt path (rows1 ++ (name, value) :: rows2) ->
  ~ In name (map fst rows2) ->
  exists properties s',
    read_msi_properties rt path s = (Return properties, s') /\
    PyDict.get name (deref (heap s') properties) = Some value /\
    count_occ string_dec (PyDict.keys (deref (heap s') properties)) name = 1.
Proof.
  intros Hrows Hlast.
  rewrite (read_table_rows s Hrows).
  eexists. eexists. split; [reflexivity|].
  cbn [heap]. rewrite deref_new. split.
  - now apply PyDictFacts.get_scan_last.
  - apply NoDup_count_occ'.
    + apply PyDictFacts.wf_scan. constructor.
    + apply PyDictFacts.keys_scan. left.
      rewrite map_app, in_app_iff. right. now left.
Qed.

Lemma read_msi_properties_last_row_wins_witness :
  table_rows (runtime_of [("a", "1"); ("b", "2"); ("a", "3")]) "pokerok.msi"
             ([("a", "1"); ("b", "2")] ++ ("a", "3") :: []) /\
  ~ In "a" (map fst (@nil (string * string))) /\
  exists properties s',
    read_msi_properties (runtime_of [("a", "1"); ("b", "2"); ("a", "3")])
                        "pokerok.msi" initial
    = (Return properties, s') /\
    PyDict.get "a" (deref (heap s') properties) = Some "3" /\
    count_occ string_dec (PyDict.keys (deref (heap s') properties)) "a" = 1.
Proof.
  assert (Hrows : table_rows (runtime_of [("a", "1"); ("b", "2"); ("a", "3")])
                             "pokerok.msi"
                             ([("a", "1"); ("b", "2")] ++ ("a", "3") :: [])).
  { eexists. split.
    - eexists. repeat split; reflexivity.
    - reflexivity. }
  assert (Hlast : ~ In "a" (map fst (@nil (string * string)))) by (cbn; tauto).
  split; [exact Hrows|]. split; [exact Hlast|].
  exact (@read_msi_properties_last_row_wins
           (runtime_of [("a", "1"); ("b", "2"); ("a", "3")]) "pokerok.msi" initial
           [("a", "1"); ("b", "2")] [] "a" "3" Hrows Hlast).
Defined.

(** C10.  The key block shows, for each of the four well-known keys,
    the value the dictionary binds to it, and the placeholder only where
    [get] finds no value: these are the lines [print_key_properties]
    prints, one after the other as far as standard output can encode
    them, and all of them where it encodes every text.  A key bound to
    the empty string is printed with the empty value, as the run on
    ProductName bound to the empty string shows. *)
Theorem placeholder_only_when_absent (rt : Runtime) (properties : ref) (s : State) :
  print_key_properties rt properties s
  = written rt
      [ "=== Основная информация о продукте ===";
        ("ProductName   : "
         ++ match PyDict.get "ProductName" (deref (heap s) properties) with
            | Some v => v
            | None => "не указано"
            end)%string;
        ("ProductCode   : "
         ++ match PyDict.get "ProductCode" (deref (heap s) properties) with
            | Some v => v
            | None => "не указано"
            end)%string;
        ("ProductVersion: "
         ++ match PyDict.get "ProductVersion" (deref (heap s) properties) with
            | Some v => v
            | None => "не указано"
            end)%string;
        ("Manufacturer  : "
         ++ match PyDict.get "Manufacturer" (deref (heap s) properties) with
            | Some v => v
            | None => "не указано"
            end)%string;
        EmptyString ] s /\
  ((forall text, stdout_encode_error rt text = None) ->
   print_key_properties rt properties s
   = (Return tt,
      mkState (heap s)
              (stdout s
               ++ lines_text
                    [ "=== Основная информация о продукте ===";
                      ("ProductName   : "
                       ++ match PyDict.get "ProductName" (deref (heap s) properties) with
                          | Some v => v
                          | None => "не указано"
                          end)%string;
                      ("ProductCode   : "
                       ++ match PyDict.get "ProductCode" (deref (heap s) properties) with
                          | Some v => v
                          | None => "не указано"
                          end)%string;
                      ("ProductVersion: "
                       ++ match PyDict.get "ProductVersion" (deref (heap s) properties) with
                          | Some v => v
                          | None => "не указано"
                          end)%string;
                      ("Manufacturer  : "
                       ++ match PyDict.get "Manufacturer" (deref (heap s) properties) with
                          | Some v => v
                          | None => "не указано"
                          end)%string;
                      EmptyString ])%string
              (stderr s))) /\
  print_key_properties (runtime_of []) 0
    (mkState [[("ProductName", EmptyString)]] EmptyString EmptyString)
  = (Return tt,
     mkState [[("ProductName", EmptyString)]]
             "=== Основная информация о продукте ===
ProductName   : 
ProductCode   : не указано
ProductVersion: не указано
Manufacturer  : не указано

"
             EmptyString).
Proof.
  split; [apply print_key_properties_run|]. split.
  - intros Henc. rewrite print_key_properties_run. apply written_all.
    intros l _. unfold encode_error. rewrite Henc.
    now destruct (l =? EmptyString)%string.
  - reflexivity.
Qed.

(** * Further properties of the script *)

(** ** What [main] does when a line cannot be printed or the reader raises *)


(** X1.  When the table has rows and standard output cannot encode a
    line of the report, [main] ends with code 3: the lines before that
    line are on standard output, and standard error gets the diagnostic
    for an unexpected error with the text of the encoder's error. *)
Theorem main_print_error (rt : Runtime) (argv : list arg) (path : string)
    (s : State) (rows : list (string * string)) (msg : string) :
  accepted argv path ->
  regular_file rt path = true ->
  table_rows rt path rows ->
  rows <> [] ->
  snd (taken (encode_error rt)
             (key_lines (PyDict.scan rows [])
              ++ all_lines (listed (str_lower rt) (PyDict.scan rows []))))
  = Some msg ->
  main rt argv s
  = (Return 3%Z,
     mkState (heap s ++ [PyDict.scan rows []])
             (stdout s
              ++ lines_text
                   (fst (taken (encode_error rt)
                               (key_lines (PyDict.scan rows [])
                                ++ all_lines (listed (str_lower rt)
                                                     (PyDict.scan rows []))))))%string
             (stderr s ++ unexpected_error_message msg)%string).
Proof.
  intros Hargv Hfile Hrows Hne Herr.
  rewrite (@main_rows rt argv path (fun s0 => parse_args_accepted rt s0 Hargv)
             rows s Hfile Hrows Hne).
  unfold report_error, report_lines. now rewrite Herr.
Qed.

Lemma main_print_error_witness :
  accepted [] "pokerok.msi" /\
  regular_file (runtime_utf8_stdout [("ProductName", lone_surrogate)]) "pokerok.msi"
  = true /\
  table_rows (runtime_utf8_stdout [("ProductName", lone_surrogate)]) "pokerok.msi"
             [("ProductName", lone_surrogate)] /\
  main (runtime_utf8_stdout [("ProductName", lone_surrogate)]) [] initial
  = (Return 3%Z,
     mkState [[("ProductName", lone_surrogate)]]
             "=== Основная информация о продукте ===
"
             "Непредвиденная ошибка: surrogates not allowed
").
Proof.
  assert (H : accepted [] "pokerok.msi") by (left; split; reflexivity).
  assert (Hr : table_rows (runtime_utf8_stdout [("ProductName", lone_surrogate)])
                          "pokerok.msi" [("ProductName", lone_surrogate)]).
  { eexists. split; [eexists; repeat split; reflexivity | reflexivity]. }
  assert (Hne : [("ProductName", lone_surrogate)] <> []) by discriminate.
  split; [exact H|]. split; [reflexivity|]. split; [exact Hr|].
  exact (@main_print_error (runtime_utf8_stdout [("ProductName", lone_surrogate)]) []
           "pokerok.msi" initial [("ProductName", lone_surrogate)]
           "surrogates not allowed" H eq_refl Hr Hne eq_refl).
Defined.



(** X3.  When [OpenDatabase] raises [MSIError], which happens outside the
    [try] of the reader, the run ends with code 2 and the diagnostic shows
    the text of that error as it is; no dictionary is made and nothing is
    printed. *)
Theorem main_open_error (rt : Runtime) (argv : list arg) (path : string)
    (s : State) (detail : string) :
  accepted argv path ->
  regular_file rt path = true ->
  OpenDatabase rt path MSIDBOPEN_READONLY = Err (MSIError detail) ->
  main rt argv s
  = (Return 2%Z,
     mkState (heap s) (stdout s)
             (stderr s ++ database_error_message detail)%string).
Proof.
  intros Hargv Hfile Hopen.
  apply (@main_reader_raises rt argv path
           (fun s0 => parse_args_accepted rt s0 Hargv) s s (MSIError detail) Hfile).
  now apply read_not_a_package.
Qed.

Lemma main_open_error_witness :
  accepted [] "pokerok.msi" /\
  regular_file (runtime_failing (MSIError "bad")) "pokerok.msi" = true /\
  OpenDatabase (runtime_failing (MSIError "bad")) "pokerok.msi" MSIDBOPEN_READONLY
  = Err (MSIError "bad") /\
  main (runtime_failing (MSIError "bad")) [] initial
  = (Return 2%Z,
     mkState (heap initial) (stdout initial)
             (stderr initial ++ database_error_message "bad")%string).
Proof.
  assert (H : accepted [] "pokerok.msi") by (left; split; reflexivity).
  split; [exact H|]. split; [reflexivity|]. split; [reflexivity|].
  exact (@main_open_error (runtime_failing (MSIError "bad")) [] "pokerok.msi"
           initial "bad" H eq_refl eq_refl).
Defined.

(** X4.  When opening or executing the view raises [MSIError], the reader
    raises a new [MSIError] whose text is the fixed prefix followed by the
    text of the first, and the run ends with code 2 and that text in the
    diagnostic. *)
Theorem main_view_error (rt : Runtime) (argv : list arg) (path : string)
    (s : State) (detail : string) :
  accepted argv path ->
  regular_file rt path = true ->
  no_property_table rt path (MSIError detail) ->
  read_msi_properties rt path s
  = (Raise (Exc (MSIError (view_error_prefix ++ detail))), s) /\
  main rt argv s
  = (Return 2%Z,
     mkState (heap s) (stdout s)
             (stderr s ++ database_error_message (view_error_prefix ++ detail))%string).
Proof.
  intros Hargv Hfile Hview.
  assert (Hread := read_no_property_table s Hview). cbn [reraised] in Hread.
  split; [exact Hread|].
  exact (@main_reader_raises rt argv path
           (fun s0 => parse_args_accepted rt s0 Hargv) s s
           (MSIError (view_error_prefix ++ detail)) Hfile Hread).
Qed.

Lemma main_view_error_witness :
  accepted [] "pokerok.msi" /\
  regular_file (runtime_without_table (MSIError "no table")) "pokerok.msi" = true /\
  no_property_table (runtime_without_table (MSIError "no table")) "pokerok.msi"
                    (MSIError "no table") /\
  main (runtime_without_table (MSIError "no table")) [] initial
  = (Return 2%Z,
     mkState (heap initial) (stdout initial)
             (stderr initial
              ++ database_error_message (view_error_prefix ++ "no table"))%string).
Proof.
  assert (H : accepted [] "pokerok.msi") by (left; split; reflexivity).
  assert (Hv : no_property_table (runtime_without_table (MSIError "no table"))
                                 "pokerok.msi" (MSIError "no table")).
  { eexists. split; [reflexivity|]. left. reflexivity. }
  split; [exact H|]. split; [reflexivity|]. split; [exact Hv|].
  exact (proj2 (@main_view_error (runtime_without_table (MSIError "no table")) []
                  "pokerok.msi" initial "no table" H eq_refl Hv)).
Defined.

(** X5.  When a call fails while the rows are fetched, the reader raises
    the exception of that call as it is, the dictionary holding the rows
    read so far is dropped, and the run ends with code 2 or 3 and nothing
    on standard output. *)
Theorem main_fetch_error (rt : Runtime) (argv : list arg) (path : string)
    (s : State) (view : View) (rows : list (string * string)) (e : exception) :
  accepted argv path ->
  regular_file rt path = true ->
  opens rt path view ->
  fetched (Fetch view) = (rows, Some e) ->
  read_msi_properties rt path s
  = (Raise (Exc e),
     mkState (heap s ++ [PyDict.scan rows []]) (stdout s) (stderr s)) /\
  main rt argv s
  = (Return (match e with MSIError _ => 2 | OtherException _ => 3 end)%Z,
     mkState (heap s ++ [PyDict.scan rows []]) (stdout s)
             (stderr s
              ++ match e with
                 | MSIError m => database_error_message m
                 | OtherException m => unexpected_error_message m
                 end)%string).
Proof.
  intros Hargv Hfile Hopen Hf.
  assert (Hread := read_opens s Hopen). rewrite Hf in Hread. cbn [fst snd] in Hread.
  split; [exact Hread|].
  exact (@main_reader_raises rt argv path
           (fun s0 => parse_args_accepted rt s0 Hargv) s _ e Hfile Hread).
Qed.

Lemma main_fetch_error_witness :
  accepted [] "pokerok.msi" /\
  regular_file (runtime_corrupt [("ProductName", "X")] (MSIError "broken"))
               "pokerok.msi" = true /\
  main (runtime_corrupt [("ProductName", "X")] (MSIError "broken")) [] initial
  = (Return 2%Z,
     mkState [[("ProductName", "X")]] EmptyString
             (database_error_message "broken")).
Proof.
  assert (H : accepted [] "pokerok.msi") by (left; split; reflexivity).
  assert (Ho : opens (runtime_corrupt [("ProductName", "X")] (MSIError "broken"))
                     "pokerok.msi"
                     (mkView (Ok tt)
                             (map (fun row => Ok (record_of row)) [("ProductName", "X")]
                              ++ [Err (MSIError "broken")]))).
  { eexists. repeat split; reflexivity. }
  split; [exact H|]. split; [reflexivity|].
  exact (proj2 (@main_fetch_error
                  (runtime_corrupt [("ProductName", "X")] (MSIError "broken")) []
                  "pokerok.msi" initial _ [("ProductName", "X")] (MSIError "broken")
                  H eq_refl Ho eq_refl)).
Defined.

(** X6.  An exception of a library call that is no [MSIError] passes the
    [except] clause of the reader unchanged, and [main] ends with code 3
    and a diagnostic showing its text; nothing is printed. *)
Theorem main_unexpected_error (rt : Runtime) (argv : list arg) (path : string)
    (s : State) (detail : string) :
  accepted argv path ->
  regular_file rt path = true ->
  library_failure rt path (OtherException detail) ->
  exists s1,
    read_msi_properties rt path s = (Raise (Exc (OtherException detail)), s1) /\
    main rt argv s
    = (Return 3%Z,
       mkState (heap s1) (stdout s)
               (stderr s ++ unexpected_error_message detail)%string).
Proof.
  intros Hargv Hfile Hfail.
  destruct (read_library_failure s Hfail) as (s1 & [(H & Ho & He)|(H & Ho & He)]);
    cbn [reraised] in H; exists s1; (split; [exact H|]);
    rewrite (@main_reader_raises rt argv path
               (fun s0 => parse_args_accepted rt s0 Hargv) s s1
               (OtherException detail) Hfile H), Ho, He; reflexivity.
Qed.

Lemma main_unexpected_error_witness :
  accepted [] "pokerok.msi" /\
  regular_file (runtime_without_table (OtherException "boom")) "pokerok.msi" = true /\
  library_failure (runtime_without_table (OtherException "boom")) "pokerok.msi"
                  (OtherException "boom") /\
  exists s1,
    read_msi_properties (runtime_without_table (OtherException "boom"))
                        "pokerok.msi" initial
    = (Raise (Exc (OtherException "boom")), s1) /\
    main (runtime_without_table (OtherException "boom")) [] initial
    = (Return 3%Z,
       mkState (heap s1) (stdout initial)
               (stderr initial ++ unexpected_error_message "boom")%string).
Proof.
  assert (H : accepted [] "pokerok.msi") by (left; split; reflexivity).
  assert (Hf : library_failure (runtime_without_table (OtherException "boom"))
                               "pokerok.msi" (OtherException "boom")).
  { right. left. eexists. split; [reflexivity|]. left. reflexivity. }
  split; [exact H|]. split; [reflexivity|]. split; [exact Hf|].
  exact (@main_unexpected_error (runtime_without_table (OtherException "boom")) []
           "pokerok.msi" initial "boom" H eq_refl Hf).
Defined.


(** X7.  On a package whose query runs, the run ends with code 2 exactly
    when the table has no row; with a row it ends with code 0 when
    standard output takes the whole report and with code 3 otherwise.
    With no row the diagnostic is the one for a table that is missing or
    empty, and the empty dictionary is all that was made. *)
Theorem main_empty_table_only_without_rows (rt : Runtime) (argv : list arg)
    (path : string) (s : State) (rows : list (string * string)) :
  accepted argv path ->
  regular_file rt path = true ->
  table_rows rt path rows ->
  exists code s',
    main rt argv s = (Return code, s') /\
    (code = 2%Z <-> rows = []) /\
    (code = 0%Z <->
     rows <> [] /\
     snd (taken (encode_error rt)
                (key_lines (PyDict.scan rows [])
                 ++ all_lines (listed (str_lower rt) (PyDict.scan rows []))))
     = None) /\
    (code = 3%Z <->
     rows <> [] /\
     snd (taken (encode_error rt)
                (key_lines (PyDict.scan rows [])
                 ++ all_lines (listed (str_lower rt) (PyDict.scan rows []))))
     <> None) /\
    (rows = [] ->
     s' = mkState (heap s ++ [[]]) (stdout s)
                  (stderr s ++ empty_table_message)%string).
Proof.
  intros Hargv Hfile Hrows.
  assert (Hparse := fun s0 => parse_args_accepted rt s0 Hargv).
  destruct rows as [|row rows].
  - rewrite (@main_empty_table rt argv path Hparse s Hfile Hrows).
    eexists. eexists. split; [reflexivity|].
    split; [tauto|]. split; [|split; [|reflexivity]];
      (split; [discriminate | intros [H _]; congruence]).
  - assert (Hne : row :: rows <> []) by discriminate.
    rewrite (@main_rows rt argv path Hparse _ s Hfile Hrows Hne).
    unfold report_error, report_lines.
    destruct (snd (taken (encode_error rt)
                         (key_lines (PyDict.scan (row :: rows) [])
                          ++ all_lines (listed (str_lower rt)
                                               (PyDict.scan (row :: rows) [])))))
      as [msg|]; eexists; eexists; (split; [reflexivity|]).
    + split; [split; discriminate|].
      split; [split; [discriminate | intros [_ H]; discriminate]|].
      split; [split; [split; [assumption | discriminate] | reflexivity]|].
      discriminate.
    + split; [split; discriminate|].
      split; [split; [split; [assumption | reflexivity] | reflexivity]|].
      split; [split; [discriminate | intros [_ H]; congruence]|].
      discriminate.
Qed.

Lemma main_empty_table_only_without_rows_witness :
  accepted [] "pokerok.msi" /\
  regular_file (runtime_of []) "pokerok.msi" = true /\
  table_rows (runtime_of []) "pokerok.msi" [] /\
  exists code s',
    main (runtime_of []) [] initial = (Return code, s') /\
    (code = 2%Z <-> @nil (string * string) = []) /\
    (@nil (string * string) = [] ->
     s' = mkState (heap initial ++ [[]]) (stdout initial)
                  (stderr initial ++ empty_table_message)%string).
Proof.
  assert (H : accepted [] "pokerok.msi") by (left; split; reflexivity).
  assert (Hr : table_rows (runtime_of []) "pokerok.msi" []).
  { eexists. split; [eexists; repeat split; reflexivity | reflexivity]. }
  split; [exact H|]. split; [reflexivity|]. split; [exact Hr|].
  destruct (@main_empty_table_only_without_rows (runtime_of []) [] "pokerok.msi"
              initial [] H eq_refl Hr) as (code & s' & Hrun & H2 & _ & _ & Hs).
  exists code, s'. auto.
Defined.

(** X8.  Where [msilib] reports its failures as [MSIError] and standard
    output encodes every text, the catch-all clause of [main] is never
    taken: the exit code is 0, 1 or 2. *)
Theorem main_no_code_3_under_contract (rt : Runtime) (argv : list arg)
    (path : string) (s : State) :
  accepted argv path ->
  msilib_contract rt path ->
  (forall text, stdout_encode_error rt text = None) ->
  exists code s',
    main rt argv s = (Return code, s') /\ (code = 0 \/ code = 1 \/ code = 2)%Z.
Proof.
  intros Hargv Hcontract Henc.
  assert (Hparse := fun s0 => parse_args_accepted rt s0 Hargv).
  destruct (@main_classified rt argv path Hparse s)
    as (code & s' & Hrun & H0 & H1 & H2 & H3).
  exists code, s'. split; [exact Hrun|].
  destruct (outcome_classes rt path) as [H|[H|[H|H]]].
  - left. now apply H0.
  - right. left. now apply H1.
  - right. right. now apply H2.
  - exfalso. destruct H as (_ & [(msg & Hfail)|(rows & msg & _ & _ & Herr)]).
    + destruct (Hcontract _ Hfail) as (msg' & Heq). discriminate.
    + unfold report_error in Herr. rewrite taken_all in Herr; [discriminate|].
      intros l _. unfold encode_error. rewrite Henc.
      now destruct (l =? EmptyString)%string.
Qed.

Lemma main_no_code_3_under_contract_witness :
  accepted [] "pokerok.msi" /\
  msilib_contract (runtime_failing (MSIError "bad")) "pokerok.msi" /\
  (forall text, stdout_encode_error (runtime_failing (MSIError "bad")) text = None) /\
  exists code s',
    main (runtime_failing (MSIError "bad")) [] initial = (Return code, s') /\
    (code = 0 \/ code = 1 \/ code = 2)%Z.
Proof.
  assert (H : accepted [] "pokerok.msi") by (left; split; reflexivity).
  assert (Hc : msilib_contract (runtime_failing (MSIError "bad")) "pokerok.msi").
  { intros e [He|[(db & Hdb & _)|(view & rows & (db & Hdb & _) & _)]].
    - exists "bad". unfold not_a_package in He. cbn in He. congruence.
    - discriminate.
    - discriminate. }
  assert (Henc : forall text,
             stdout_encode_error (runtime_failing (MSIError "bad")) text = None)
    by reflexivity.
  split; [exact H|]. split; [exact Hc|]. split; [exact Henc|].
  exact (@main_no_code_3_under_contract (runtime_failing (MSIError "bad")) []
           "pokerok.msi" initial H Hc Henc).
Defined.


(** ** What the reader leaves in its dictionary *)

(** X9.  The reader writes to neither stream, makes at most one
    dictionary, which it puts behind a reference that was not in use, and
    leaves every dictionary that exists as it is, whether it returns or
    raises. *)
Theorem read_msi_properties_frame (rt : Runtime) (path : string) (s : State) :
  exists o s',
    read_msi_properties rt path s = (o, s') /\
    stdout s' = stdout s /\
    stderr s' = stderr s /\
    (heap s' = heap s \/ exists d, heap s' = heap s ++ [d]) /\
    (forall r, r < length (heap s) -> deref (heap s') r = deref (heap s) r) /\
    (forall r, o = Return r -> r = length (heap s) /\ heap s' <> heap s).
Proof.
  assert (Hgrow : forall d, heap s ++ [d] <> heap s).
  { intros d H. apply (f_equal (@length _)) in H.
    rewrite length_app in H. simpl in H. lia. }
  destruct (library_cases rt path) as [(rows & Hrows)|(e & [H|[H|H]])].
  - eexists. eexists. split; [exact (read_table_rows s Hrows)|].
    cbn [heap stdout stderr].
    split; [reflexivity|]. split; [reflexivity|]. split; [right; eauto|].
    split; [intros r Hr; now apply deref_old|].
    intros r [= <-]. split; [reflexivity | apply Hgrow].
  - eexists. eexists. split; [exact (read_not_a_package s H)|].
    split; [reflexivity|]. split; [reflexivity|]. split; [now left|].
    split; [reflexivity | discriminate].
  - eexists. eexists. split; [exact (read_no_property_table s H)|].
    split; [reflexivity|]. split; [reflexivity|]. split; [now left|].
    split; [reflexivity | discriminate].
  - destruct H as (view & rows & Hopen & Hf).
    eexists. eexists. split; [rewrite (read_opens s Hopen), Hf; reflexivity|].
    cbn [heap stdout stderr fst snd].
    split; [reflexivity|]. split; [reflexivity|]. split; [right; eauto|].
    split; [intros r Hr; now apply deref_old | discriminate].
Qed.

(** X10.  The dictionary the reader returns holds the names of the rows
    in the order in which they first occur, each once; a name that no row
    carries is not in it. *)
Theorem read_msi_properties_key_order (rt : Runtime) (path : string) (s : State)
    (rows : list (string * string)) :
  table_rows rt path rows ->
  exists properties s',
    read_msi_properties rt path s = (Return properties, s') /\
    PyDict.keys (deref (heap s') properties) = first_occurrences (map fst rows) /\
    (forall name,
        PyDict.get name (deref (heap s') properties) = None <->
        ~ In name (map fst rows)).
Proof.
  intros Hrows. rewrite (read_table_rows s Hrows).
  eexists. eexists. split; [reflexivity|].
  cbn [heap]. rewrite deref_new. split.
  - apply keys_scan_first_occurrences.
  - intros name. rewrite PyDictFacts.get_None_iff, PyDictFacts.keys_scan.
    cbn. tauto.
Qed.

Lemma read_msi_properties_key_order_witness :
  table_rows (runtime_of [("b", "1"); ("a", "2"); ("b", "3")]) "pokerok.msi"
             [("b", "1"); ("a", "2"); ("b", "3")] /\
  exists properties s',
    read_msi_properties (runtime_of [("b", "1"); ("a", "2"); ("b", "3")])
                        "pokerok.msi" initial
    = (Return properties, s') /\
    PyDict.keys (deref (heap s') properties) = ["b"; "a"] /\
    (forall name,
        PyDict.get name (deref (heap s') properties) = None <->
        ~ In name (map fst [("b", "1"); ("a", "2"); ("b", "3")])).
Proof.
  assert (Hr : table_rows (runtime_of [("b", "1"); ("a", "2"); ("b", "3")])
                          "pokerok.msi" [("b", "1"); ("a", "2"); ("b", "3")]).
  { eexists. split; [eexists; repeat split; reflexivity | reflexivity]. }
  split; [exact Hr|].
  exact (@read_msi_properties_key_order
           (runtime_of [("b", "1"); ("a", "2"); ("b", "3")]) "pokerok.msi" initial
           [("b", "1"); ("a", "2"); ("b", "3")] Hr).
Defined.

(** X11.  When the rows of the table have distinct names, the dictionary
    the reader returns holds exactly these rows, in their order. *)
Theorem read_msi_properties_distinct_rows (rt : Runtime) (path : string) (s : State)
    (rows : list (string * string)) :
  table_rows rt path rows ->
  NoDup (map fst rows) ->
  exists properties s',
    read_msi_properties rt path s = (Return properties, s') /\
    deref (heap s') properties = rows.
Proof.
  intros Hrows Hnd. rewrite (read_table_rows s Hrows).
  eexists. eexists. split; [reflexivity|].
  cbn [heap]. rewrite deref_new. now apply scan_rows_distinct.
Qed.

Lemma read_msi_properties_distinct_rows_witness :
  table_rows (runtime_of [("ProductVersion", "1.0"); ("ProductName", "X")])
             "pokerok.msi" [("ProductVersion", "1.0"); ("ProductName", "X")] /\
  NoDup (map fst [("ProductVersion", "1.0"); ("ProductName", "X")]) /\
  exists properties s',
    read_msi_properties (runtime_of [("ProductVersion", "1.0"); ("ProductName", "X")])
                        "pokerok.msi" initial
    = (Return properties, s') /\
    deref (heap s') properties = [("ProductVersion", "1.0"); ("ProductName", "X")].
Proof.
  assert (Hr : table_rows (runtime_of [("ProductVersion", "1.0"); ("ProductName", "X")])
                          "pokerok.msi"
                          [("ProductVersion", "1.0"); ("ProductName", "X")]).
  { eexists. split; [eexists; repeat split; reflexivity | reflexivity]. }
  assert (Hnd : NoDup (map fst [("ProductVersion", "1.0"); ("ProductName", "X")])).
  { cbn. repeat constructor; cbn; intuition discriminate. }
  split; [exact Hr|]. split; [exact Hnd|].
  exact (@read_msi_properties_distinct_rows
           (runtime_of [("ProductVersion", "1.0"); ("ProductName", "X")])
           "pokerok.msi" initial _ Hr Hnd).
Defined.


(** ** What the two blocks depend on *)

(** X12.  The key block shows the four well-known keys and nothing else:
    two dictionaries that bind these four names alike give the same key
    block, with the same outcome, whatever other entries they hold. *)
Theorem print_key_properties_ignores_other_keys (rt : Runtime) (r1 r2 : ref)
    (s1 s2 : State) :
  (forall name,
      In name ["ProductName"; "ProductCode"; "ProductVersion"; "Manufacturer"] ->
      PyDict.get name (deref (heap s1) r1) = PyDict.get name (deref (heap s2) r2)) ->
  exists o text,
    print_key_properties rt r1 s1
    = (o, mkState (heap s1) (stdout s1 ++ text)%string (stderr s1)) /\
    print_key_properties rt r2 s2
    = (o, mkState (heap s2) (stdout s2 ++ text)%string (stderr s2)) /\
    ((forall t, stdout_encode_error rt t = None) -> o = Return tt).
Proof.
  intros Hsame.
  assert (Hlines : key_lines (deref (heap s2) r2) = key_lines (deref (heap s1) r1)).
  { unfold key_lines.
    rewrite (Hsame "ProductName"), (Hsame "ProductCode"),
      (Hsame "ProductVersion"), (Hsame "Manufacturer");
      [reflexivity | | | |]; cbn; tauto. }
  rewrite !print_key_properties_run, Hlines. unfold written.
  eexists. eexists. split; [reflexivity|]. split; [reflexivity|].
  intros Henc. rewrite taken_all; [reflexivity|].
  intros l _. unfold encode_error. rewrite Henc.
  now destruct (l =? EmptyString)%string.
Qed.

Lemma print_key_properties_ignores_other_keys_witness :
  (forall name,
      In name ["ProductName"; "ProductCode"; "ProductVersion"; "Manufacturer"] ->
      PyDict.get name
        (deref (heap (mkState [[("UpgradeCode", "U"); ("ProductName", "X")]]
                              EmptyString EmptyString)) 0)
      = PyDict.get name
          (deref (heap (mkState [[("ProductName", "X")]] EmptyString EmptyString)) 0)) /\
  exists o text,
    print_key_properties (runtime_of []) 0
      (mkState [[("UpgradeCode", "U"); ("ProductName", "X")]] EmptyString EmptyString)
    = (o,
       mkState [[("UpgradeCode", "U"); ("ProductName", "X")]]
               (EmptyString ++ text)%string EmptyString) /\
    print_key_properties (runtime_of []) 0
      (mkState [[("ProductName", "X")]] EmptyString EmptyString)
    = (o, mkState [[("ProductName", "X")]] (EmptyString ++ text)%string EmptyString) /\
    ((forall t, stdout_encode_error (runtime_of []) t = None) -> o = Return tt).
Proof.
  assert (H : forall name,
             In name ["ProductName"; "ProductCode"; "ProductVersion"; "Manufacturer"] ->
             PyDict.get name
               (deref (heap (mkState [[("UpgradeCode", "U"); ("ProductName", "X")]]
                                     EmptyString EmptyString)) 0)
             = PyDict.get name
                 (deref (heap (mkState [[("ProductName", "X")]]
                                       EmptyString EmptyString)) 0)).
  { intros name [<-|[<-|[<-|[<-|[]]]]]; reflexivity. }
  split; [exact H|].
  exact (@print_key_properties_ignores_other_keys (runtime_of []) 0 0
           (mkState [[("UpgradeCode", "U"); ("ProductName", "X")]]
                    EmptyString EmptyString)
           (mkState [[("ProductName", "X")]] EmptyString EmptyString) H).
Defined.

(** X13.  In the full list every line shows a name with the value the
    dictionary binds to it, and names with the same lower-cased form
    stand in the order the dictionary holds them.  With the ordering by
    the lower-cased name this fixes the list: it is the only arrangement
    of the names that is ordered and keeps that order.  The lines are
    printed one after the other, up to the first that standard output
    cannot encode; where it encodes every text all of them are printed. *)
Theorem print_all_properties_order (rt : Runtime) (properties : ref) (s : State) :
  exists entries,
    print_all_properties rt properties s
    = written rt ("=== Все свойства MSI (таблица Property) ==="
                  :: map entry_line entries) s /\
    ((forall text, stdout_encode_error rt text = None) ->
     print_all_properties rt properties s
     = (Return tt,
        mkState (heap s)
                (stdout s
                 ++ lines_text
                      ("=== Все свойства MSI (таблица Property) ==="
                       :: map entry_line entries))%string
                (stderr s))) /\
    (forall name value,
        In (name, value) entries ->
        PyDict.get name (deref (heap s) properties) = Some value) /\
    (forall k,
        filter (same_key (str_lower rt) k) (map fst entries)
        = filter (same_key (str_lower rt) k) (PyDict.keys (deref (heap s) properties))) /\
    (forall names,
        StronglySorted (key_le (str_lower rt)) names ->
        (forall k,
            filter (same_key (str_lower rt) k) names
            = filter (same_key (str_lower rt) k)
                     (PyDict.keys (deref (heap s) properties))) ->
        names = map fst entries).
Proof.
  exists (listed (str_lower rt) (deref (heap s) properties)).
  split; [apply print_all_properties_run|]. split; [|split; [|split]].
  - intros Henc. rewrite print_all_properties_run. apply written_all.
    intros l _. unfold encode_error. rewrite Henc.
    now destruct (l =? EmptyString)%string.
  - intros name value Hin. unfold listed in Hin.
    apply in_map_iff in Hin as (n & [= -> <-] & Hn).
    apply sorted_In, PyDictFacts.get_In in Hn. destruct Hn as (v & ->).
    reflexivity.
  - intros k. rewrite listed_names. apply sorted_stable.
  - intros names Hs Hf. rewrite listed_names. now apply sorted_characterised.
Qed.
